(** * MediaMetadataManager (src/main.py): a shallow embedding and its properties

    The development follows the source:
    - [Py]: the fragment of Python's dynamic values and exceptions the program
      uses (decoded JSON documents, truthiness, [dict.get], indexing,
      iteration, [str.join]);
    - [Regex]: the fragment of [re.match] used by the three filename patterns
      (character classes, [{n}], [+], [*], groups), with Python's greedy,
      backtracking semantics, anchored at the start;
    - [Parser]: [_parse_filename];
    - the world (files and network), and computations that change it and may
      raise;
    - section [MediaMetadataManager]: [_search_tmdb],
      [_apply_metadata_to_file], [_load_metadata], [_save_metadata] and
      [scan_directory], over an environment [Env];
    - [Sample]: an environment on which all of it runs;
    - the properties.

    Strings are sequences of code points below 256 (one [ascii] each). *)

From Stdlib Require Import ZArith Ascii String DecimalString.
From stdpp Require Import gmap strings list.

Local Open Scope Z_scope.

(** ** Python values and exceptions *)

Module Py.

(** The exceptions the program can meet. [RequestException] stands for the
    whole [requests.RequestException] hierarchy (connection errors, timeouts,
    [HTTPError] from [raise_for_status]); the others are the builtin ones. *)
Inductive exn :=
| RequestException
| KeyError
| TypeError
| AttributeError
| IndexError
| UnicodeDecodeError
| JSONDecodeError
| OSError.

Inductive result (A : Type) :=
| Ok (a : A)
| Raise (e : exn).
Arguments Ok {A} a.
Arguments Raise {A} e.

Definition bind {A B} (m : result A) (f : A -> result B) : result B :=
  match m with
  | Ok a => f a
  | Raise e => Raise e
  end.

(** A decoded JSON document, which is also the shape of every value the
    program stores in its cache. [JObj kv] is the dict whose items are [kv] in
    insertion order. A float is identified by its [repr] (the text [json.dump]
    writes for it). *)
Unset Elimination Schemes.
Inductive json :=
| JNull
| JBool (b : bool)
| JInt (z : Z)
| JFloat (repr : string)
| JStr (s : string)
| JArr (l : list json)
| JObj (kv : list (string * json)).
Set Elimination Schemes.

(** [bool(v)] *)
Definition truthy (v : json) : bool :=
  match v with
  | JNull => false
  | JBool b => b
  | JInt z => negb (z =? 0)
  | JFloat r => negb (String.eqb r "0.0" || String.eqb r "-0.0")
  | JStr s => negb (String.eqb s "")
  | JArr l => match l with [] => false | _ => true end
  | JObj kv => match kv with [] => false | _ => true end
  end.

(** Lookup of a key among the items of a dict. *)
Fixpoint assoc (k : string) (kv : list (string * json)) : option json :=
  match kv with
  | [] => None
  | (k', v) :: kv' => if String.eqb k k' then Some v else assoc k kv'
  end.

(** [d[k] = v] on the items of a dict: an existing key keeps its position. *)
Fixpoint assoc_set (k : string) (v : json) (kv : list (string * json))
  : list (string * json) :=
  match kv with
  | [] => [(k, v)]
  | (k', v') :: kv' =>
      if String.eqb k k' then (k, v) :: kv' else (k', v') :: assoc_set k v kv'
  end.

(** [v.get(k, dflt)]: only a dict has the method. *)
Definition py_get (v : json) (k : string) (dflt : json) : result json :=
  match v with
  | JObj kv => Ok (default dflt (assoc k kv))
  | _ => Raise AttributeError
  end.

(** [v[k]] for a string key [k]. *)
Definition py_getitem (v : json) (k : string) : result json :=
  match v with
  | JObj kv => match assoc k kv with Some x => Ok x | None => Raise KeyError end
  | _ => Raise TypeError
  end.

(** [v[k] = x] for a string key [k]. *)
Definition py_setitem (v : json) (k : string) (x : json) : result json :=
  match v with
  | JObj kv => Ok (JObj (assoc_set k x kv))
  | _ => Raise TypeError
  end.

Definition is_str (s : string) (v : json) : bool :=
  match v with JStr t => String.eqb s t | _ => false end.

Definition substring_of (k s : string) : bool :=
  match String.index 0 k s with Some _ => true | None => false end.

(** [k in v] for a string [k]: key of a dict, element of a list, substring of
    a string; the other values are not containers. *)
Definition py_contains (k : string) (v : json) : result bool :=
  match v with
  | JObj kv => Ok (match assoc k kv with Some _ => true | None => false end)
  | JArr l => Ok (existsb (is_str k) l)
  | JStr s => Ok (substring_of k s)
  | _ => Raise TypeError
  end.

Definition chars (s : string) : list json :=
  map (fun c => JStr (String c EmptyString)) (list_ascii_of_string s).

(** [for x in v]: the elements of a list, the keys of a dict, the characters
    of a string. *)
Definition py_iter (v : json) : result (list json) :=
  match v with
  | JArr l => Ok l
  | JObj kv => Ok (map (fun p => JStr (fst p)) kv)
  | JStr s => Ok (chars s)
  | _ => Raise TypeError
  end.

(** [v[:n]]: lists and strings can be sliced; a dict refuses the slice as a
    key (with [TypeError] up to Python 3.11, with [KeyError] since). *)
Definition py_slice_to (n : nat) (v : json) : result json :=
  match v with
  | JArr l => Ok (JArr (take n l))
  | JStr s => Ok (JStr (string_of_list_ascii (take n (list_ascii_of_string s))))
  | _ => Raise TypeError
  end.

(** [v[0]] *)
Definition py_first (v : json) : result json :=
  match v with
  | JArr (x :: _) => Ok x
  | JArr [] => Raise IndexError
  | JStr (String c _) => Ok (JStr (String c EmptyString))
  | JStr EmptyString => Raise IndexError
  | JObj _ => Raise KeyError
  | _ => Raise TypeError
  end.

Fixpoint strs (l : list json) : result (list string) :=
  match l with
  | [] => Ok []
  | JStr s :: l' =>
      match strs l' with Ok r => Ok (s :: r) | Raise e => Raise e end
  | _ :: _ => Raise TypeError
  end.

Fixpoint concat_sep (sep : string) (l : list string) : string :=
  match l with
  | [] => ""
  | [s] => s
  | s :: l' => s +:+ sep +:+ concat_sep sep l'
  end.

(** [sep.join(v)]: every item must be a string. *)
Definition py_join (sep : string) (v : json) : result string :=
  match py_iter v with
  | Ok l => match strs l with Ok ss => Ok (concat_sep sep ss) | Raise e => Raise e end
  | Raise e => Raise e
  end.

End Py.

Export Py.

#[export] Instance result_ret : MRet Py.result := @Py.Ok.
#[export] Instance result_bind : MBind Py.result := fun A B f m => Py.bind m f.

(** ** Regular expressions: the fragment used by [_parse_filename] *)

Module Regex.

Inductive quant :=
| Exactly (n : nat)      (* one character is [Exactly 1]; [{4}] is [Exactly 4] *)
| AtLeast (n : nat).     (* [+] is [AtLeast 1]; [*] is [AtLeast 0]; both greedy *)

Record atom := Atom {
  cls : ascii -> bool;
  qnt : quant;
  captured : bool        (* the atom is a group of its own: [(.+)], [(\d{4})] *)
}.

Definition pattern := list atom.

(** Length of the longest prefix of [s] whose characters are all in [p]. *)
Fixpoint span_len (p : ascii -> bool) (s : list ascii) : nat :=
  match s with
  | c :: s' => if p c then S (span_len p s') else O
  | [] => O
  end.

(** Greedy choice with backtracking: try to give the atom [lo + d] characters,
    then [lo + d - 1], ..., down to [lo], and keep the first length for which
    the rest of the pattern [k] matches. *)
Fixpoint try_down {A} (k : list ascii -> option A) (s : list ascii)
    (lo d : nat) : option (nat * A) :=
  match k (drop (lo + d) s) with
  | Some r => Some ((lo + d)%nat, r)
  | None =>
      match d with
      | O => None
      | S d' => try_down k s lo d'
      end
  end.

Definition push (a : atom) (g : list ascii) (gs : list (list ascii)) :=
  if captured a then g :: gs else gs.

(** [re.match p s]: the pattern is anchored at the start of [s] and need not
    reach its end. The result lists the groups in order. *)
Fixpoint re_match (p : pattern) (s : list ascii) : option (list (list ascii)) :=
  match p with
  | [] => Some []
  | a :: p' =>
      let run := span_len (cls a) s in
      match qnt a with
      | Exactly n =>
          if (n <=? run)%nat
          then push a (take n s) <$> re_match p' (drop n s)
          else None
      | AtLeast lo =>
          if (lo <=? run)%nat
          then (fun kg => push a (take (fst kg) s) (snd kg))
                 <$> try_down (re_match p') s lo (run - lo)
          else None
      end
  end.

(** Character classes. *)
Definition code (c : ascii) : N := N_of_ascii c.

Definition any_char (c : ascii) : bool := negb (code c =? 10)%N.      (* [.] *)
Definition digit (c : ascii) : bool := ((48 <=? code c) && (code c <=? 57))%N. (* [\d] *)
Definition lit (x : ascii) (c : ascii) : bool := Ascii.eqb x c.
Definition one_of (x y : ascii) (c : ascii) : bool := Ascii.eqb x c || Ascii.eqb y c.

Definition ch (p : ascii -> bool) : atom := Atom p (Exactly 1) false.

End Regex.

(** ** [_parse_filename] *)

Module Parser.
Import Regex.

Inductive media_type := movie | tv.

Definition media_type_str (k : media_type) : string :=
  match k with movie => "movie" | tv => "tv" end.

(** [r"(.+)\((\d{4})\).*"] *)
Definition movie_pattern1 : pattern :=
  [ Atom any_char (AtLeast 1) true; ch (lit "(");
    Atom digit (Exactly 4) true; ch (lit ")");
    Atom any_char (AtLeast 0) false ].

(** [r"(.+)\.(\d{4})\."] *)
Definition movie_pattern2 : pattern :=
  [ Atom any_char (AtLeast 1) true; ch (lit ".");
    Atom digit (Exactly 4) true; ch (lit ".") ].

(** [r"(.+)[sS](\d+)[eE](\d+)"] *)
Definition tv_pattern : pattern :=
  [ Atom any_char (AtLeast 1) true; ch (one_of "s" "S");
    Atom digit (AtLeast 1) true; ch (one_of "e" "E");
    Atom digit (AtLeast 1) true ].

(** [str.isspace] on code points below 256. *)
Definition is_space (c : ascii) : bool :=
  let n := code c in
  ((9 <=? n) && (n <=? 13) || (28 <=? n) && (n <=? 32)
   || (n =? 133) || (n =? 160))%N.

Fixpoint lstrip (s : list ascii) : list ascii :=
  match s with
  | c :: s' => if is_space c then lstrip s' else s
  | [] => []
  end.

(** [str.strip()] *)
Definition strip (s : list ascii) : list ascii :=
  rev (lstrip (rev (lstrip s))).

(** [s.replace(".", " ")] *)
Definition replace_dots (s : list ascii) : list ascii :=
  map (fun c => if Ascii.eqb c "." then " "%char else c) s.

(** [s.split('.')[0]] *)
Fixpoint before_first_dot (s : list ascii) : list ascii :=
  match s with
  | c :: s' => if Ascii.eqb c "." then [] else c :: before_first_dot s'
  | [] => []
  end.

(** [int(g)] for a group of decimal digits. *)
Definition int_of_digits (g : list ascii) : Z :=
  fold_left (fun acc c => 10 * acc + (Z.of_N (code c) - 48)) g 0.

Definition clean_title (g : list ascii) : string :=
  string_of_list_ascii (replace_dots (strip g)).

Definition _parse_filename (filename : string)
  : string * option Z * media_type :=
  let s := list_ascii_of_string filename in
  match re_match movie_pattern1 s with
  | Some (g1 :: g2 :: _) => (clean_title g1, Some (int_of_digits g2), movie)
  | _ =>
    match re_match movie_pattern2 s with
    | Some (g1 :: g2 :: _) => (clean_title g1, Some (int_of_digits g2), movie)
    | _ =>
      match re_match tv_pattern s with
      | Some (g1 :: _) => (clean_title g1, None, tv)
      | _ =>
        (string_of_list_ascii (replace_dots (before_first_dot s)), None, movie)
      end
    end
  end.

End Parser.

Export Parser.


(** ** The manager and its environment *)

Definition path := list string.

(** An HTTP request as the program builds it: the URL and the query
    parameters. *)
Record request := Request {
  url : string;
  params : list (string * json)
}.

(** An HTTP response: the status, the body decoded by [response.json()] and
    the raw body read through [response.raw]. A body that is no JSON document
    is outside the model (which exception [response.json()] raises for it
    depends on the version of [requests]). *)
Record response := Response {
  status_code : Z;
  json_body : json;
  raw : string
}.

(** What [subprocess.run] observes of the remux tool: it could not be started,
    or it ran and exited; [output] is the file the tool left at its output
    path, if it wrote one. *)
Inductive run_outcome :=
| LaunchError
| Exited (returncode : Z) (stderr : string) (output : option string).

(** The world outside the process: the regular files, by path, and the HTTP
    requests sent so far. *)
Record world := World {
  fs : gmap path string;
  sent : list request
}.

Definition with_fs (f : gmap path string -> gmap path string) (w : world) : world :=
  World (f (fs w)) (sent w).

(** Computations that read and change the world and may raise. *)
Definition M (A : Type) : Type := world -> result A * world.

#[export] Instance M_ret : MRet M := fun A a w => (Ok a, w).
#[export] Instance M_bind : MBind M := fun A B f m w =>
  match m w with
  | (Ok a, w') => f a w'
  | (Raise e, w') => (Raise e, w')
  end.

Definition lift {A} (r : result A) : M A := fun w => (r, w).
Definition raise {A} (e : exn) : M A := lift (Raise e).
Definition get_fs : M (gmap path string) := fun w => (Ok (fs w), w).

(** [try: body except E: handler], where [handles] says which exceptions
    are instances of [E]. *)
Definition try_except {A} (body : M A) (handles : exn -> bool) (handler : M A)
  : M A := fun w =>
  match body w with
  | (Raise e, w') => if handles e then handler w' else (Raise e, w')
  | r => r
  end.

Definition is_request_exception (e : exn) : bool :=
  match e with RequestException => true | _ => false end.

(** [except Exception]: every exception of the model. *)
Definition is_exception (e : exn) : bool := true.

(** Paths. A path is the list of its components; [str(p)] joins them with the
    separator, and a string is read back as a path by splitting it. *)
Definition path_str (p : path) : string := concat_sep "/" p.

Fixpoint split_on (sep : ascii) (cur : list ascii) (s : list ascii)
  : list (list ascii) :=
  match s with
  | [] => [rev cur]
  | c :: s' =>
      if Ascii.eqb c sep then rev cur :: split_on sep [] s'
      else split_on sep (c :: cur) s'
  end.

Definition split_path (s : string) : path :=
  filter (fun c => c <> EmptyString)
    (map string_of_list_ascii (split_on "/" [] (list_ascii_of_string s))).

(** [p.name] *)
Definition path_name (p : path) : string := default EmptyString (last p).

(** [str.lower] on code points below 256. *)
Definition lower_char (c : ascii) : ascii :=
  let n := N_of_ascii c in
  if ((65 <=? n) && (n <=? 90) || (192 <=? n) && (n <=? 222) && negb (n =? 215))%N
  then ascii_of_N (n + 32) else c.

Definition lower (s : string) : string :=
  string_of_list_ascii (map lower_char (list_ascii_of_string s)).

(** [name.rfind('.')], as pathlib uses it to split a name into stem and
    suffix: the position of the last period, if it is neither the first nor
    the last character of the name. *)
Fixpoint rfind_dot (s : list ascii) (i : nat) (found : option nat) : option nat :=
  match s with
  | [] => found
  | c :: s' => rfind_dot s' (S i) (if Ascii.eqb c "." then Some i else found)
  end.

Definition suffix_start (name : string) : option nat :=
  let s := list_ascii_of_string name in
  match rfind_dot s O None with
  | Some i => if ((0 <? i) && (i <? length s - 1))%nat then Some i else None
  | None => None
  end.

(** [p.suffix] *)
Definition path_suffix (p : path) : string :=
  let name := path_name p in
  match suffix_start name with
  | Some i => string_of_list_ascii (drop i (list_ascii_of_string name))
  | None => EmptyString
  end.

(** [p.stem] *)
Definition path_stem (p : path) : string :=
  let name := path_name p in
  match suffix_start name with
  | Some i => string_of_list_ascii (take i (list_ascii_of_string name))
  | None => name
  end.

(** [str(n)] for an integer. *)
Definition str_of_int (n : Z) : string := NilZero.string_of_int (Z.to_int n).

Definition TMDB_API_URL : string := "https://api.themoviedb.org/3".
Definition POSTER_BASE_URL : string := "https://image.tmdb.org/t/p/w500".

(** The manager object and its environment: the fields set by [__init__]
    ([directory], [api_key], [ffmpeg_path]); [str()] on a decoded JSON value
    (as f-strings apply it); the network as [requests.get] sees it (the answer
    may depend on the requests sent before); the remux tool; the JSON codec of
    the [json] module composed with the UTF-8 codec of the file; the directory
    walk (the files under the root, each relative to it, in traversal order);
    the scratch directory of [tempfile.gettempdir()]; the open file
    descriptors ([os.path.exists] accepts an integer); and whether the
    operating system refuses to replace one path by another. *)
Class Env := {
  directory : path;
  api_key : string;
  ffmpeg_path : string;
  py_str : json -> string;
  http_get : list request -> request -> option response;
  run_ffmpeg : list string -> gmap path string -> run_outcome;
  json_load : string -> result json;
  json_dump : json -> string;
  os_walk : gmap path string -> path -> list path;
  tempdir : path;
  fd_exists : Z -> bool;
  replace_refused : path -> path -> bool
}.

Section MediaMetadataManager.
Context {env : Env}.

Definition metadata_dir : path := directory ++ [".metadata"].
Definition posters_dir : path := metadata_dir ++ ["posters"].
Definition metadata_file : path := metadata_dir ++ ["metadata.json"].

(** *** [_search_tmdb] *)

(** [requests.get(url, params=params)]: a transport failure raises. *)
Definition requests_get (r : request) : M response := fun w =>
  let w' := World (fs w) (sent w ++ [r]) in
  match http_get (sent w) r with
  | Some resp => (Ok resp, w')
  | None => (Raise RequestException, w')
  end.

(** [response.raise_for_status()] *)
Definition raise_for_status (r : response) : M unit :=
  if (400 <=? status_code r) && (status_code r <? 600)
  then raise RequestException else mret tt.

(** [with open(p, 'wb') as out_file: shutil.copyfileobj(raw, out_file)] *)
Definition write_file (p : path) (content : string) : M unit := fun w =>
  (Ok tt, with_fs (insert p content) w).

(** [if year]: an absent year and the year 0 are false. *)
Definition year_truthy (year : option Z) : bool :=
  match year with Some y => negb (y =? 0) | None => false end.

(** The loop over [cast[:5]] (lines 192-197). The condition is an [and]: the
    second test is not evaluated when the first is false. *)
Fixpoint cast_loop (actors : list json) : result (list json) :=
  match actors with
  | [] => Ok []
  | actor :: rest =>
      has_name ← py_contains "name" actor;
      has_both ← (if has_name : bool then py_contains "character" actor else Ok false);
      if has_both : bool then
        n ← py_getitem actor "name";
        c ← py_getitem actor "character";
        tl ← cast_loop rest;
        Ok (JObj [("name", n); ("character", c)] :: tl)
      else cast_loop rest
  end.

(** The loop over [crew] (lines 202-204). *)
Fixpoint crew_loop (crew : list json) : result (list json) :=
  match crew with
  | [] => Ok []
  | person :: rest =>
      job ← py_get person "job" JNull;
      if is_str "Director" job || is_str "Creator" job then
        n ← py_getitem person "name";
        tl ← crew_loop rest;
        Ok (n :: tl)
      else crew_loop rest
  end.

(** [[genre["name"] for genre in genres]] *)
Fixpoint genre_names (genres : list json) : result (list json) :=
  match genres with
  | [] => Ok []
  | genre :: rest =>
      n ← py_getitem genre "name";
      tl ← genre_names rest;
      Ok (n :: tl)
  end.

(** [v.split("-")[0]]: only a string has the method. *)
Fixpoint before_first (sep : ascii) (s : list ascii) : list ascii :=
  match s with
  | c :: s' => if Ascii.eqb c sep then [] else c :: before_first sep s'
  | [] => []
  end.

Definition split_dash_first (v : json) : result string :=
  match v with
  | JStr s => Ok (string_of_list_ascii (before_first "-" (list_ascii_of_string s)))
  | _ => Raise AttributeError
  end.

(** The year of a date field, when its first part has 4 characters. *)
Definition year_of_date (detailed_info : json) (field : string) : result string :=
  date ← py_get detailed_info field (JStr "");
  part ← split_dash_first date;
  Ok (if (String.length part =? 4)%nat then part else EmptyString).

Definition year_str_of (year : option Z) (media_type : media_type)
    (detailed_info : json) : result string :=
  if year_truthy year then Ok (str_of_int (default 0 year))
  else
    match media_type with
    | movie =>
        d ← py_get detailed_info "release_date" JNull;
        if truthy d then year_of_date detailed_info "release_date" else Ok EmptyString
    | tv =>
        d ← py_get detailed_info "first_air_date" JNull;
        if truthy d then year_of_date detailed_info "first_air_date" else Ok EmptyString
    end.

Definition runtime_of (media_type : media_type) (detailed_info : json)
  : result json :=
  match media_type with
  | movie =>
      r ← py_get detailed_info "runtime" (JInt 0);
      Ok (if truthy r then r else JInt 0)
  | tv =>
      e ← py_get detailed_info "episode_run_time" (JArr []);
      match e with
      | JArr (x :: _) => Ok x
      | _ => Ok (JInt 0)
      end
  end.

Definition search_params (title : string) (year : option Z)
    (media_type : media_type) : list (string * json) :=
  [("api_key", JStr api_key); ("query", JStr title); ("language", JStr "pt-BR")]
  ++ match media_type with
     | movie => if year_truthy year then [("year", JInt (default 0 year))] else []
     | tv => []
     end.

Definition details_params : list (string * json) :=
  [("api_key", JStr api_key); ("language", JStr "pt-BR");
   ("append_to_response", JStr "credits,keywords")].

(** The poster file of a catalog id: [posters_dir / f"{id}.jpg"]. *)
Definition poster_file (id : json) : path :=
  posters_dir ++ split_path (py_str id +:+ ".jpg").

(** The record built from the detail response (lines 189-242). *)
Definition cast_of (detailed_info : json) : result (list json) :=
  credits ← py_get detailed_info "credits" (JObj []);
  cast ← py_get credits "cast" (JArr []);
  cast5 ← py_slice_to 5 cast;
  actors ← py_iter cast5;
  cast_loop actors.

Definition directors_of (detailed_info : json) : result (list json) :=
  credits ← py_get detailed_info "credits" (JObj []);
  crew ← py_get credits "crew" (JArr []);
  persons ← py_iter crew;
  crew_loop persons.

Definition build_record (title : string) (year : option Z)
    (media_type : media_type) (detailed_info local_poster_path : json)
  : result json :=
  cast_list ← cast_of detailed_info;
  directors ← directors_of detailed_info;
  runtime ← runtime_of media_type detailed_info;
  year_str ← year_str_of year media_type detailed_info;
  id ← py_getitem detailed_info "id";
  title' ← py_get detailed_info
             (match media_type with movie => "title" | tv => "name" end)
             (JStr title);
  original ← py_get detailed_info
               (match media_type with
                | movie => "original_title" | tv => "original_name" end)
               (JStr "");
  overview ← py_get detailed_info "overview" (JStr "");
  genres ← py_get detailed_info "genres" (JArr []);
  genre_items ← py_iter genres;
  genre_list ← genre_names genre_items;
  rating ← py_get detailed_info "vote_average" (JInt 0);
  Ok (JObj [
    ("id", id);
    ("title", title');
    ("original_title", original);
    ("year", JStr year_str);
    ("overview", overview);
    ("poster_path", local_poster_path);
    ("genres", JArr genre_list);
    ("rating", rating);
    ("type", JStr (media_type_str media_type));
    ("directors", JArr directors);
    ("cast", JArr cast_list);
    ("runtime", runtime)]).

Definition search_request (title : string) (year : option Z)
    (media_type : media_type) : request :=
  Request (TMDB_API_URL +:+ "/search/" +:+ media_type_str media_type)
          (search_params title year media_type).

Definition details_request (media_type : media_type) (id : json) : request :=
  Request (TMDB_API_URL +:+ "/" +:+ media_type_str media_type +:+ "/" +:+ py_str id)
          details_params.

Definition poster_request (poster_path : json) : request :=
  Request (POSTER_BASE_URL +:+ py_str poster_path) [].

(** The poster download (lines 178-187). *)
Definition download_poster (id poster_path : json) : M json :=
  let local := poster_file id in
  poster_response ← requests_get (poster_request poster_path);
  raise_for_status poster_response;;
  write_file local (raw poster_response);;
  mret (JStr (path_str local)).

(** The body of the [try] block (lines 151-245). *)
Definition search_body (title : string) (year : option Z)
    (media_type : media_type) : M (option json) :=
  response ← requests_get (search_request title year media_type);
  raise_for_status response;;
  results ← lift (py_get (json_body response) "results" (JArr []));
  if negb (truthy results) then mret None else
  result ← lift (py_first results);
  id ← lift (py_getitem result "id");
  details_response ← requests_get (details_request media_type id);
  raise_for_status details_response;;
  let detailed_info := json_body details_response in
  poster_path ← lift (py_get detailed_info "poster_path" JNull);
  local_poster_path ←
    (if truthy poster_path then download_poster id poster_path else mret JNull);
  metadata ← lift (build_record title year media_type detailed_info
                     local_poster_path);
  mret (Some metadata).

(** [_search_tmdb]: the body, with [except requests.RequestException]
    returning [None]. Any other exception leaves the function. *)
Definition _search_tmdb (title : string) (year : option Z)
    (media_type : media_type) : M (option json) :=
  try_except (search_body title year media_type)
    is_request_exception (mret None).

(** *** [_apply_metadata_to_file] *)

(** The names collected from the cast (lines 277-280). *)
Fixpoint actor_names (cast : list json) : list json :=
  match cast with
  | [] => []
  | JObj kv :: rest =>
      match assoc "name" kv with
      | Some n => n :: actor_names rest
      | None => actor_names rest
      end
  | _ :: rest => actor_names rest
  end.

(** [os.path.exists(v)]: a string is a path, an integer a file descriptor. *)
Definition os_path_exists (v : json) (files : gmap path string) : result bool :=
  match v with
  | JStr s => Ok (match files !! split_path s with Some _ => true | None => false end)
  | JInt n => Ok (fd_exists n)
  | JBool b => Ok (fd_exists (if b then 1 else 0))
  | _ => Raise TypeError
  end.

(** [Path(temp_dir) / f"temp_{file_path.name}"] *)
Definition temp_output (file_path : path) : path :=
  tempdir ++ ["temp_" +:+ path_name file_path].

(** The command line (lines 260-303): the argument list, checked by the
    [' '.join(cmd)] of the debug message, which needs every item to be a
    string. *)
Definition ffmpeg_command (file_path : path) (metadata : json)
    (files : gmap path string) : result (list string) :=
  title ← py_get metadata "title" (JStr "");
  year ← py_get metadata "year" (JStr "");
  overview ← py_get metadata "overview" (JStr "");
  genres ← py_get metadata "genres" (JArr []);
  genre ← py_join ", " genres;
  rating ← py_get metadata "rating" (JInt 0);
  let metadata_args :=
    [ "-metadata"; "title=" +:+ py_str title;
      "-metadata"; "date=" +:+ py_str year;
      "-metadata"; "description=" +:+ py_str overview;
      "-metadata"; "genre=" +:+ genre;
      "-metadata"; "rating=" +:+ py_str rating ] in
  directors ← py_get metadata "directors" JNull;
  director_args ←
    (if truthy directors then
       ds ← py_getitem metadata "directors";
       d ← py_join ", " ds;
       Ok ["-metadata"; "director=" +:+ d]
     else Ok []);
  cast ← py_get metadata "cast" (JArr []);
  cast_items ← py_iter cast;
  let actors := actor_names cast_items in
  artist_args ←
    (match actors with
     | [] => Ok []
     | _ => a ← py_join ", " (JArr actors); Ok ["-metadata"; "artist=" +:+ a]
     end);
  poster_path ← py_get metadata "poster_path" JNull;
  has_poster ← (if truthy poster_path then os_path_exists poster_path files
                else Ok false);
  let cmd :=
    [JStr ffmpeg_path; JStr "-i"; JStr (path_str file_path)]
    ++ (if has_poster : bool then
          [JStr "-i"; poster_path; JStr "-map"; JStr "0"; JStr "-map"; JStr "1";
           JStr "-c"; JStr "copy"; JStr "-disposition:v:1"; JStr "attached_pic"]
        else [JStr "-c"; JStr "copy"])
    ++ map JStr (metadata_args ++ director_args ++ artist_args)
    ++ [JStr (path_str (temp_output file_path))] in
  _ ← py_join " " (JArr cmd);
  strs cmd.

(** [subprocess.run(cmd, capture_output=True, text=True)]: the tool reads its
    inputs and writes nothing but its output path. *)
Definition subprocess_run (cmd : list string) (out : path) : M (Z * string) :=
  fun w =>
  match run_ffmpeg cmd (fs w) with
  | LaunchError => (Raise OSError, w)
  | Exited code err output =>
      (Ok (code, err),
       match output with
       | Some content => with_fs (insert out content) w
       | None => w
       end)
  end.

(** The world the tool leaves behind when it has run. *)
Definition after_tool (file_path : path) (output : option string) (w : world)
  : world :=
  match output with
  | Some content => with_fs (insert (temp_output file_path) content) w
  | None => w
  end.

(** [os.replace(src, dst)] *)
Definition os_replace (src dst : path) : M unit := fun w =>
  match fs w !! src with
  | None => (Raise OSError, w)
  | Some content =>
      if replace_refused src dst then (Raise OSError, w)
      else (Ok tt, with_fs (fun f => <[dst := content]> (delete src f)) w)
  end.

Definition apply_body (file_path : path) (metadata : json) : M bool :=
  files ← get_fs;
  cmd ← lift (ffmpeg_command file_path metadata files);
  r ← subprocess_run cmd (temp_output file_path);
  if negb (fst r =? 0) then mret false
  else os_replace (temp_output file_path) file_path;; mret true.

(** [_apply_metadata_to_file]: the body, with [except Exception] returning
    [False]. *)
Definition _apply_metadata_to_file (file_path : path) (metadata : json)
  : M bool :=
  try_except (apply_body file_path metadata) is_exception (mret false).

(** *** [_load_metadata], [_save_metadata] *)

Definition is_json_decode_error (e : exn) : bool :=
  match e with JSONDecodeError => true | _ => false end.

Definition _load_metadata : M json :=
  files ← get_fs;
  match files !! metadata_file with
  | Some content =>
      try_except (lift (json_load content)) is_json_decode_error (mret (JObj []))
  | None => mret (JObj [])
  end.

Definition _save_metadata (metadata : json) : M unit :=
  write_file metadata_file (json_dump metadata).

(** *** [scan_directory] *)

Definition video_extensions : list string := [".mp4"; ".mkv"; ".m4v"].

Definition is_video (rel : path) : bool :=
  existsb (String.eqb (lower (path_suffix (directory ++ rel)))) video_extensions.

(** The files collected by the walk (lines 324-329), each relative to the
    root. *)
Definition media_files (files : gmap path string) : list path :=
  List.filter is_video (os_walk files directory).

(** One turn of the loop (lines 337-357) on the file [directory / rel], with
    [cache] for [self.metadata]; the two counters of the source are only
    logged and are left out. *)
Definition process_file (rel : path) (cache : json) : M json :=
  let file_path := directory ++ rel in
  let relative_path := path_str rel in
  existing_metadata ← lift (py_get cache relative_path JNull);
  ce ←
    (if negb (truthy existing_metadata) then
       let '(title, year, media_type) := _parse_filename (path_stem file_path) in
       metadata ← _search_tmdb title year media_type;
       match metadata with
       | Some md =>
           if truthy md then
             cache' ← lift (py_setitem cache relative_path md);
             mret (cache', md)
           else mret (cache, existing_metadata)
       | None => mret (cache, existing_metadata)
       end
     else mret (cache, existing_metadata));
  if truthy (snd ce) then
    _ ← _apply_metadata_to_file file_path (snd ce);
    mret (fst ce)
  else mret (fst ce).

Fixpoint scan_loop (files : list path) (cache : json) : M json :=
  match files with
  | [] => mret cache
  | rel :: rest =>
      cache' ← process_file rel cache;
      scan_loop rest cache'
  end.

Definition scan_directory (cache : json) : M json :=
  files ← get_fs;
  cache' ← scan_loop (media_files files) cache;
  _save_metadata cache';;
  mret cache'.

(** One run of the program: the constructor loads the cache, then the
    directory is scanned. *)
Definition run : M json :=
  cache ← _load_metadata;
  scan_directory cache.

End MediaMetadataManager.

(** ** [_find_ffmpeg] *)

(** The host on which the tool is looked for: [os.name], the lookup command
    as [subprocess.run] sees it (its return code and standard output, or an
    exception when it cannot be started), and [os.path.isfile]. *)
Class Host := {
  os_name : string;
  run_command : list string -> result (Z * string);
  os_path_isfile : string -> bool
}.

Section FindFfmpeg.
Context {host : Host}.

Definition common_locations : list string :=
  [ "/usr/bin/ffmpeg";
    "/usr/local/bin/ffmpeg";
    "/opt/homebrew/bin/ffmpeg";
    "C:\Program Files\ffmpeg\bin\ffmpeg.exe";
    "C:\ffmpeg\bin\ffmpeg.exe" ].

(** The loop over the locations (lines 75-79). *)
Fixpoint first_file (locations : list string) : option string :=
  match locations with
  | [] => None
  | location :: rest =>
      if os_path_isfile location then Some location else first_file rest
  end.

(** [s.strip()] and [s.strip().split('\n')[0]] *)
Definition str_strip (s : string) : string :=
  string_of_list_ascii (strip (list_ascii_of_string s)).

Definition first_line (s : string) : string :=
  string_of_list_ascii (before_first "010" (list_ascii_of_string s)).

(** The body of the [try] block (lines 56-79). *)
Definition find_ffmpeg_body : result (option string) :=
  if String.eqb os_name "nt" then
    r ← run_command ["where"; "ffmpeg"];
    if r.1 =? 0 then Ok (Some (first_line (str_strip r.2)))
    else Ok (first_file common_locations)
  else
    r ← run_command ["which"; "ffmpeg"];
    if r.1 =? 0 then Ok (Some (str_strip r.2))
    else Ok (first_file common_locations).

(** [_find_ffmpeg]: the body, with [except Exception] returning [None]. *)
Definition _find_ffmpeg : option string :=
  match find_ffmpeg_body with
  | Ok found => found
  | Raise _ => None
  end.

End FindFfmpeg.

(** * A sample environment

    An instance of the environment on which the definitions can be run:
    [str()] on scalars, a JSON codec for ASCII documents without [\u] escapes
    and exponents (what [json.dump(..., ensure_ascii=False, indent=4)] writes
    and [json.load] reads on them), a walk that lists the files under the root
    in the order of their paths, a small catalog and a remux tool. *)

Module Sample.

(** [str(v)] for a scalar; the examples format nothing else. *)
Definition str_scalar (v : json) : string :=
  match v with
  | JNull => "None"
  | JBool true => "True"
  | JBool false => "False"
  | JInt z => str_of_int z
  | JFloat r => r
  | JStr s => s
  | JArr _ => "[...]"
  | JObj _ => "{...}"
  end.

(** *** Writing JSON *)

Definition dquote : ascii := "034"%char.

Definition escape_char (c : ascii) : string :=
  if Ascii.eqb c dquote then String "\" (String dquote EmptyString)
  else if Ascii.eqb c "\" then "\\"
  else if Ascii.eqb c "010" then "\n"
  else if Ascii.eqb c "013" then "\r"
  else if Ascii.eqb c "009" then "\t"
  else String c EmptyString.

Definition quote (s : string) : string :=
  String dquote (String.concat EmptyString (map escape_char (list_ascii_of_string s)))
  +:+ String dquote EmptyString.

Fixpoint spaces (n : nat) : string :=
  match n with O => "" | S n' => " " +:+ spaces n' end.

Definition newline : string := String "010" EmptyString.

Definition block (opening closing : string) (level : nat) (items : list string)
  : string :=
  match items with
  | [] => opening +:+ closing
  | _ =>
      opening +:+ newline +:+ spaces (4 * (level + 1))
      +:+ concat_sep ("," +:+ newline +:+ spaces (4 * (level + 1))) items
      +:+ newline +:+ spaces (4 * level) +:+ closing
  end.

Fixpoint dump_at (level : nat) (v : json) : string :=
  match v with
  | JNull => "null"
  | JBool true => "true"
  | JBool false => "false"
  | JInt z => str_of_int z
  | JFloat r => r
  | JStr s => quote s
  | JArr l => block "[" "]" level (map (dump_at (level + 1)) l)
  | JObj kv =>
      block "{" "}" level
        (map (fun p => quote (fst p) +:+ ": " +:+ dump_at (level + 1) (snd p)) kv)
  end.

Definition dump : json -> string := dump_at 0.

(** *** Reading JSON *)

Definition is_ws (c : ascii) : bool :=
  Ascii.eqb c " " || Ascii.eqb c "010" || Ascii.eqb c "013" || Ascii.eqb c "009".

Fixpoint skip_ws (s : list ascii) : list ascii :=
  match s with
  | c :: s' => if is_ws c then skip_ws s' else s
  | [] => []
  end.

(** The characters of a string literal after its opening quote. *)
Fixpoint read_string (s : list ascii) (acc : list ascii)
  : option (string * list ascii) :=
  match s with
  | [] => None
  | c :: s' =>
      if Ascii.eqb c dquote then Some (string_of_list_ascii (rev acc), s')
      else if Ascii.eqb c "\" then
        match s' with
        | e :: s'' =>
            if Ascii.eqb e "n" then read_string s'' ("010"%char :: acc)
            else if Ascii.eqb e "r" then read_string s'' ("013"%char :: acc)
            else if Ascii.eqb e "t" then read_string s'' ("009"%char :: acc)
            else if Ascii.eqb e dquote || Ascii.eqb e "\" || Ascii.eqb e "/"
            then read_string s'' (e :: acc)
            else None
        | [] => None
        end
      else if (N_of_ascii c <? 32)%N then None
      else read_string s' (c :: acc)
  end.

(** A number: an optional sign and digits make an integer; a fraction makes a
    float, kept as it is written. *)
Definition read_number (s : list ascii) : option (json * list ascii) :=
  let '(sign, s1) :=
    match s with
    | c :: s' => if Ascii.eqb c "-" then ([c], s') else ([], s)
    | [] => ([], s)
    end in
  let n := Regex.span_len Regex.digit s1 in
  let ds := take n s1 in
  let s2 := drop n s1 in
  match ds, s2 with
  | [], _ => None
  | _, c :: s3 =>
      if Ascii.eqb c "." then
        let m := Regex.span_len Regex.digit s3 in
        match take m s3 with
        | [] => None
        | fs => Some (JFloat (string_of_list_ascii (sign ++ ds ++ c :: fs)),
                      drop m s3)
        end
      else Some (JInt ((if sign is [] then 1 else -1) * int_of_digits ds), s2)
  | _, [] => Some (JInt ((if sign is [] then 1 else -1) * int_of_digits ds), s2)
  end.

Fixpoint read_value (fuel : nat) (s : list ascii) : option (json * list ascii) :=
  match fuel with
  | O => None
  | S fuel' =>
      let read_items :=
        fix read_items (n : nat) (s : list ascii) : option (list json * list ascii) :=
          match n with
          | O => None
          | S n' =>
              match read_value fuel' s with
              | Some (v, r) =>
                  match skip_ws r with
                  | c :: r' =>
                      if Ascii.eqb c "," then
                        match read_items n' r' with
                        | Some (vs, r'') => Some (v :: vs, r'')
                        | None => None
                        end
                      else if Ascii.eqb c "]" then Some ([v], r')
                      else None
                  | [] => None
                  end
              | None => None
              end
          end in
      let read_members :=
        fix read_members (n : nat) (s : list ascii)
          : option (list (string * json) * list ascii) :=
          match n with
          | O => None
          | S n' =>
              match skip_ws s with
              | q :: r0 =>
                  if Ascii.eqb q dquote then
                    match read_string r0 [] with
                    | Some (k, r1) =>
                        match skip_ws r1 with
                        | colon :: r2 =>
                            if Ascii.eqb colon ":" then
                              match read_value fuel' r2 with
                              | Some (v, r3) =>
                                  match skip_ws r3 with
                                  | c :: r4 =>
                                      if Ascii.eqb c "," then
                                        match read_members n' r4 with
                                        | Some (kvs, r5) => Some ((k, v) :: kvs, r5)
                                        | None => None
                                        end
                                      else if Ascii.eqb c "}" then Some ([(k, v)], r4)
                                      else None
                                  | [] => None
                                  end
                              | None => None
                              end
                            else None
                        | [] => None
                        end
                    | None => None
                    end
                  else None
              | [] => None
              end
          end in
      match skip_ws s with
      | [] => None
      | c :: r =>
          if Ascii.eqb c "[" then
            match skip_ws r with
            | c' :: r' =>
                if Ascii.eqb c' "]" then Some (JArr [], r')
                else match read_items (length r) r with
                     | Some (vs, r'') => Some (JArr vs, r'')
                     | None => None
                     end
            | [] => None
            end
          else if Ascii.eqb c "{" then
            match skip_ws r with
            | c' :: r' =>
                if Ascii.eqb c' "}" then Some (JObj [], r')
                else match read_members (length r) r with
                     | Some (kvs, r'') =>
                         Some (JObj (fold_left (fun d p => assoc_set (fst p) (snd p) d)
                                       kvs []), r'')
                     | None => None
                     end
            | [] => None
            end
          else if Ascii.eqb c dquote then
            match read_string r [] with
            | Some (str, r') => Some (JStr str, r')
            | None => None
            end
          else
            match c :: r with
            | "n" :: "u" :: "l" :: "l" :: r' => Some (JNull, r')
            | "t" :: "r" :: "u" :: "e" :: r' => Some (JBool true, r')
            | "f" :: "a" :: "l" :: "s" :: "e" :: r' => Some (JBool false, r')
            | _ => read_number (c :: r)
            end
      end
  end%char.

(** A byte that no UTF-8 text contains. *)
Definition not_utf8 (c : ascii) : bool := (248 <=? N_of_ascii c)%N.

Definition load (content : string) : result json :=
  let s := list_ascii_of_string content in
  if existsb not_utf8 s then Raise UnicodeDecodeError
  else
    match read_value (S (length s)) s with
    | Some (v, r) =>
        match skip_ws r with
        | [] => Ok v
        | _ => Raise JSONDecodeError
        end
    | None => Raise JSONDecodeError
    end.

(** *** The walk *)

Definition walk (files : gmap path string) (root : path) : list path :=
  omap (fun p => if bool_decide (take (length root) p = root)
                 then Some (drop (length root) p) else None)
       (map fst (map_to_list files)).

(** *** A catalog and a remux tool *)

Definition found (body : json) : option response :=
  Some (Response 200 body EmptyString).

Definition search_results : json :=
  JObj [("results", JArr [JObj [("id", JInt 603)]])].

(** A catalog whose search finds the entry 603, whose detail endpoint answers
    [detail], and whose image host answers [poster]. *)
Definition catalog (detail : json) (poster : option response)
  : list request -> request -> option response :=
  fun _ r =>
    if String.prefix (TMDB_API_URL +:+ "/search/") (url r) then found search_results
    else if String.prefix (TMDB_API_URL +:+ "/") (url r) then found detail
    else poster.

Definition offline : list request -> request -> option response :=
  fun _ _ => None.

Definition remux_ok : list string -> gmap path string -> run_outcome :=
  fun _ _ => Exited 0 EmptyString (Some "remuxed").

(** A tool that stops on an error after it has begun to write its output. *)
Definition remux_fails : list string -> gmap path string -> run_outcome :=
  fun _ _ => Exited 1 "Invalid data found when processing input" (Some "partial").

Definition sample_env (net : list request -> request -> option response)
    (tool : list string -> gmap path string -> run_outcome) : Env := {|
  directory := ["media"];
  api_key := "key";
  ffmpeg_path := "/usr/bin/ffmpeg";
  py_str := str_scalar;
  http_get := net;
  run_ffmpeg := tool;
  json_load := load;
  json_dump := dump;
  os_walk := walk;
  tempdir := ["tmp"];
  fd_exists := fun _ => false;
  replace_refused := fun _ _ => false
|}.

(** Detail responses. *)
Definition detail_no_name : json :=
  JObj [("id", JInt 603); ("title", JStr "The Matrix");
        ("credits", JObj [("crew", JArr [JObj [("job", JStr "Director")]])])].

Definition detail_no_id : json :=
  JObj [("title", JStr "The Matrix")].

Definition detail_with_poster : json :=
  JObj [("id", JInt 603); ("title", JStr "The Matrix");
        ("poster_path", JStr "/matrix.jpg")].

Definition actor (name character : string) : json :=
  JObj [("name", JStr name); ("character", JStr character)].

Definition cast_of_six : list json :=
  [ JObj [("name", JStr "Keanu Reeves")];
    actor "Laurence Fishburne" "Morpheus";
    actor "Carrie-Anne Moss" "Trinity";
    actor "Hugo Weaving" "Agent Smith";
    actor "Gloria Foster" "Oracle";
    actor "Joe Pantoliano" "Cypher" ].

Definition detail_cast : json :=
  JObj [("id", JInt 603); ("title", JStr "The Matrix");
        ("credits", JObj [("cast", JArr cast_of_six)])].

Definition crew_of_two : list json :=
  [ JObj [("job", JStr "Creator"); ("name", JStr "Lilly Wachowski")];
    JObj [("job", JStr "Director"); ("name", JStr "Lana Wachowski")] ].

Definition detail_crew : json :=
  JObj [("id", JInt 603); ("title", JStr "The Matrix");
        ("credits", JObj [("crew", JArr crew_of_two)])].

(** A record as [_search_tmdb] builds it, and worlds. *)
Definition matrix_record : json :=
  JObj [("id", JInt 603); ("title", JStr "The Matrix");
        ("original_title", JStr "The Matrix"); ("year", JStr "1999");
        ("overview", JStr "A hacker learns the truth.");
        ("poster_path", JNull);
        ("genres", JArr [JStr "Action"; JStr "Science Fiction"]);
        ("rating", JFloat "8.2"); ("type", JStr "movie");
        ("directors", JArr [JStr "Lana Wachowski"]);
        ("cast", JArr [actor "Keanu Reeves" "Neo"]);
        ("runtime", JInt 136)].

Definition empty_world : world := World ∅ [].

Definition one_movie : world :=
  World {[ ["media"; "The.Matrix.1999.1080p.mkv"] := "video" ]} [].

Definition matrix_file : path := ["media"; "The.Matrix.1999.1080p.mkv"].
Definition matrix_temp : path := ["tmp"; "temp_The.Matrix.1999.1080p.mkv"].
Definition index_file : path := ["media"; ".metadata"; "metadata.json"].

(** The cache after a run that resolved the one movie, and the world that
    run left: the index as the flush wrote it, next to the movie. *)
Definition cache_one : json :=
  JObj [("The.Matrix.1999.1080p.mkv", matrix_record)].

Definition after_first_run : world :=
  World (<[ index_file := dump cache_one ]> (fs one_movie)) [].

(** Worlds whose index is a JSON document of another shape, is no JSON
    document, or is no UTF-8 text. *)
Definition index_is_a_list : world :=
  World (<[ index_file := "[1]" ]> (fs one_movie)) [].

Definition index_is_truncated : world :=
  World (<[ index_file := "{ [" ]> (fs one_movie)) [].

Definition index_is_binary : world :=
  World (<[ index_file := String (ascii_of_N 255) "{}" ]> (fs one_movie)) [].

(** The environments of the examples. *)
Definition offline_env : Env := sample_env offline remux_ok.
Definition failing_tool_env : Env := sample_env offline remux_fails.
Definition catalog_env (detail : json) (poster : option response) : Env :=
  sample_env (catalog detail poster) remux_ok.

End Sample.

(** More samples: hosts for [_find_ffmpeg], and detail responses with dates. *)

Module MoreSamples.

(** A Unix host without [which], with the tool at the second common
    location; and one whose [which] finds nothing. *)
Definition host_without_which : Host := {|
  os_name := "posix";
  run_command := fun _ => Raise OSError;
  os_path_isfile := fun p => String.eqb p "/usr/local/bin/ffmpeg"
|}.

Definition host_which_fails : Host := {|
  os_name := "posix";
  run_command := fun _ => Ok (1, EmptyString);
  os_path_isfile := fun p =>
    String.eqb p "/usr/local/bin/ffmpeg" || String.eqb p "C:\ffmpeg\bin\ffmpeg.exe"
|}.

Definition detail_dated : json :=
  JObj [("id", JInt 603); ("title", JStr "The Matrix");
        ("release_date", JStr "1999-03-31")].

Definition no_results : json := JObj [("results", JArr [])].

(** A catalog that finds nothing, and one whose detail endpoint is down. *)
Definition empty_catalog : list request -> request -> option response :=
  fun _ _ => Sample.found no_results.

Definition catalog_without_details : list request -> request -> option response :=
  fun _ r =>
    if String.prefix (TMDB_API_URL +:+ "/search/") (url r)
    then Sample.found Sample.search_results
    else Some (Response 503 JNull EmptyString).

Definition empty_catalog_env : Env := Sample.sample_env empty_catalog Sample.remux_ok.
Definition no_details_env : Env :=
  Sample.sample_env catalog_without_details Sample.remux_ok.

End MoreSamples.

(** * The statements of the specification *)

(** A non-empty sequence of decimal digits: [<NN>]. *)
Definition digits (d : list ascii) : Prop :=
  d <> [] /\ Forall (fun c => Regex.digit c = true) d.

(** A stem of the form [Title.S<NN>E<NN>*], S and E in either case. *)
Definition series_stem (stem : list ascii) : Prop :=
  exists title s d1 e d2 rest,
    stem = title ++ "."%char :: s :: d1 ++ e :: d2 ++ rest
    /\ Regex.one_of "s" "S" s = true /\ Regex.one_of "e" "E" e = true
    /\ digits d1 /\ digits d2.

(** The [{name, character}] pair of a credits entry that carries both
    fields. *)
Definition entry_of (actor : json) : option json :=
  match actor with
  | JObj kv =>
      match assoc "name" kv, assoc "character" kv with
      | Some n, Some c => Some (JObj [("name", n); ("character", c)])
      | _, _ => None
      end
  | _ => None
  end.

(** The cast in the words of the specification: the first 5 entries that
    carry both fields; entries lacking one do not count toward the cap. *)
Definition cast_as_specified (cast : list json) : list json :=
  take 5 (omap entry_of cast).

(** The name of a crew entry whose job is one of [jobs]. *)
Definition name_with_job (jobs : list string) (person : json) : option json :=
  match person with
  | JObj kv =>
      if existsb (fun j => is_str j (default JNull (assoc "job" kv))) jobs
      then assoc "name" kv else None
  | _ => None
  end.

(** The directors in the words of the specification: the job looked for
    depends on the kind. *)
Definition directors_as_specified (media_type : media_type) (crew : list json)
  : list json :=
  omap (name_with_job [match media_type with
                       | movie => "Director" | tv => "Creator" end]) crew.

(** A status for which [raise_for_status] raises. *)
Definition error_status (r : response) : bool :=
  (400 <=? status_code r) && (status_code r <? 600).

(** A request that fails: no answer, or an answer with an error status. *)
Definition request_fails (o : option response) : Prop :=
  match o with
  | None => True
  | Some r => error_status r = true
  end.

(** The cache holds a record for a key: [self.metadata.get(key)] finds a
    value that the test [if not existing_metadata] takes for a record. *)
Definition cached (cache : json) (key : string) : Prop :=
  exists kv v, cache = JObj kv /\ assoc key kv = Some v /\ truthy v = true.

(** * Properties *)

(** ** The regular-expression matcher *)

Section RegexFacts.
Import Regex.

Lemma span_len_app (p : ascii -> bool) (l s : list ascii) :
  Forall (fun c => p c = true) l ->
  span_len p (l ++ s) = (length l + span_len p s)%nat.
Proof.
  induction 1 as [|c l Hc _ IH]; simpl; [done|].
  by rewrite Hc, IH.
Qed.

Lemma span_len_ge (p : ascii -> bool) (l s : list ascii) :
  Forall (fun c => p c = true) l -> (length l <= span_len p (l ++ s))%nat.
Proof. intros H. rewrite span_len_app by done. lia. Qed.

(** Backtracking finds a match whenever some admissible length has one. *)
Lemma try_down_is_Some {A} (k : list ascii -> option A) s lo d j :
  (j <= d)%nat -> is_Some (k (drop (lo + j) s)) ->
  is_Some (try_down k s lo d).
Proof.
  revert j. induction d as [|d IH]; intros j Hj Hk; simpl.
  - assert (j = O) by lia. subst j.
    destruct (k (drop (lo + 0) s)); [eauto | by destruct Hk].
  - destruct (k (drop (lo + S d) s)) eqn:E; [eauto|].
    destruct (decide (j = S d)) as [->|Hne].
    + rewrite E in Hk. by destruct Hk.
    + apply (IH j); [lia | done].
Qed.

Lemma re_match_at_least_is_Some c lo cap p s j :
  (lo <= j)%nat -> (j <= span_len c s)%nat ->
  is_Some (re_match p (drop j s)) ->
  is_Some (re_match (Atom c (AtLeast lo) cap :: p) s).
Proof.
  intros Hlo Hj Hk. simpl.
  destruct (Nat.leb_spec lo (span_len c s)) as [_|?]; [|lia].
  apply fmap_is_Some.
  apply (try_down_is_Some _ _ _ _ (j - lo)); [lia|].
  by replace (lo + (j - lo))%nat with j by lia.
Qed.

Lemma re_match_ch_is_Some c p x s :
  c x = true -> is_Some (re_match p s) -> is_Some (re_match (ch c :: p) (x :: s)).
Proof.
  intros Hx Hk. simpl. rewrite Hx. simpl. by apply fmap_is_Some.
Qed.

(** A pattern that opens with a group yields at least that group. *)
Lemma re_match_first_group c q p s gs :
  re_match (Atom c q true :: p) s = Some gs -> exists g gs', gs = g :: gs'.
Proof.
  simpl. destruct q as [n|lo].
  - destruct (n <=? span_len c s)%nat; [|done].
    destruct (re_match p (drop n s)); simpl; [|done].
    intros [= <-]. eauto.
  - destruct (lo <=? span_len c s)%nat; [|done].
    destruct (try_down _ _ _ _) as [[k r]|]; simpl; [|done].
    intros [= <-]. eauto.
Qed.

End RegexFacts.

(** ** [_parse_filename] *)

Section ParserFacts.
Import Regex.

Lemma one_of_e_not_digit e : one_of "e" "E" e = true -> digit e = false.
Proof.
  unfold one_of. intros H. apply orb_true_iff in H as [H|H];
    apply Ascii.eqb_eq in H; by subst e.
Qed.

Lemma tv_pattern_matches title s d1 e d2 rest :
  Forall (fun c => any_char c = true) title ->
  one_of "s" "S" s = true -> one_of "e" "E" e = true ->
  digits d1 -> digits d2 ->
  is_Some (re_match tv_pattern
             (title ++ "."%char :: s :: d1 ++ e :: d2 ++ rest)).
Proof.
  intros Ht Hs He [Hn1 Hd1] [Hn2 Hd2]. unfold tv_pattern.
  apply (re_match_at_least_is_Some _ _ _ _ _ (length (title ++ ["."%char]))).
  - rewrite length_app. simpl. lia.
  - replace (title ++ "."%char :: s :: d1 ++ e :: d2 ++ rest)
      with ((title ++ ["."%char]) ++ s :: d1 ++ e :: d2 ++ rest)
      by (by rewrite <- app_assoc).
    apply span_len_ge. apply Forall_app. split; [done|].
    by repeat constructor.
  - replace (title ++ "."%char :: s :: d1 ++ e :: d2 ++ rest)
      with ((title ++ ["."%char]) ++ s :: d1 ++ e :: d2 ++ rest)
      by (by rewrite <- app_assoc).
    rewrite drop_app_length.
    apply re_match_ch_is_Some; [done|].
    apply (re_match_at_least_is_Some _ _ _ _ _ (length d1)).
    + destruct d1; [done | simpl; lia].
    + apply span_len_ge. done.
    + rewrite drop_app_length.
      apply re_match_ch_is_Some; [done|].
      apply (re_match_at_least_is_Some _ _ _ _ _ (length d2)).
      * destruct d2; [done | simpl; lia].
      * by apply span_len_ge.
      * simpl. eauto.
Qed.

(** C7, as amended: a stem [Title.S<NN>E<NN>*] whose title has no line break
    and which matches neither of the two movie patterns (tried first) is
    parsed as a series without a year. *)
Theorem parse_series_without_year_pattern title s d1 e d2 rest :
  let stem := title ++ "."%char :: s :: d1 ++ e :: d2 ++ rest in
  Forall (fun c => any_char c = true) title ->
  one_of "s" "S" s = true -> one_of "e" "E" e = true ->
  digits d1 -> digits d2 ->
  re_match movie_pattern1 stem = None ->
  re_match movie_pattern2 stem = None ->
  exists t, _parse_filename (string_of_list_ascii stem) = (t, None, tv).
Proof.
  intros stem Ht Hs He Hd1 Hd2 H1 H2.
  destruct (tv_pattern_matches title s d1 e d2 rest Ht Hs He Hd1 Hd2)
    as [gs Hgs].
  fold stem in Hgs.
  destruct (re_match_first_group _ _ _ _ _ Hgs) as (g & gs' & ->).
  unfold _parse_filename.
  rewrite list_ascii_of_string_of_list_ascii, H1, H2, Hgs. eauto.
Qed.

Lemma parse_series_without_year_pattern_witness :
  exists t, _parse_filename "Nome.da.Serie.S01E02.720p" = (t, None, tv).
Proof.
  apply (parse_series_without_year_pattern
           (list_ascii_of_string "Nome.da.Serie") "S"
           (list_ascii_of_string "01") "E"
           (list_ascii_of_string "02") (list_ascii_of_string ".720p")).
  - repeat constructor.
  - reflexivity.
  - reflexivity.
  - split; [discriminate | repeat constructor].
  - split; [discriminate | repeat constructor].
  - reflexivity.
  - reflexivity.
Defined.

(** C7, as stated, fails: a series stem whose title carries a period-delimited
    year is taken by the second movie pattern. *)
Lemma parse_series_stem_with_year_is_movie :
  series_stem (list_ascii_of_string "Show.2019.S01E01")
  /\ _parse_filename "Show.2019.S01E01" = ("Show", Some 2019, movie).
Proof.
  split; [|reflexivity].
  exists (list_ascii_of_string "Show.2019"), "S"%char,
    (list_ascii_of_string "01"), "E"%char, (list_ascii_of_string "01"), [].
  repeat split; try discriminate; repeat constructor.
Qed.

(** C8: the stem of the source's own example [Nome.do.Filme.2020.mp4] ends
    with the year, the second movie pattern asks for a period after it, and
    the parser falls through to the last case. *)
Theorem parse_year_as_last_component :
  _parse_filename "Nome.do.Filme.2020" = ("Nome", None, movie)
  /\ path_stem ["Nome.do.Filme.2020.mp4"] = "Nome.do.Filme.2020"
  /\ _parse_filename "Nome.do.Filme.2020.mp4"
     = ("Nome do Filme", Some 2020, movie).
Proof. repeat split. Qed.

(** The other cases of the parser, on names of the source's comments. *)
Example parse_year_in_parentheses :
  _parse_filename "Nome do Filme (2020)" = ("Nome do Filme", Some 2020, movie).
Proof. reflexivity. Qed.

Example parse_series :
  _parse_filename "Nome.da.Serie.S01E01" = ("Nome da Serie ", None, tv).
Proof. reflexivity. Qed.

Example parse_fallback :
  _parse_filename "Some.thing" = ("Some", None, movie).
Proof. reflexivity. Qed.

(** A line break in the title keeps the series pattern from matching. *)
Example parse_series_title_with_line_break :
  _parse_filename (String "a" (String "010" "b.S01E01"))
  = (String "a" (String "010" "b"), None, movie).
Proof. reflexivity. Qed.

End ParserFacts.

(** ** Stepping through computations *)

Section Steps.
Context {env : Env}.

Lemma bind_lift_Ok {A B} (a : A) (k : A -> M B) w :
  (lift (Ok a) ≫= k) w = k a w.
Proof. reflexivity. Qed.

Lemma bind_lift_Raise {A B} (e : exn) (k : A -> M B) w :
  (lift (Raise e) ≫= k) w = (Raise e, w).
Proof. reflexivity. Qed.

Lemma bind_lift {A B} (r : result A) (k : A -> M B) w :
  (lift r ≫= k) w = match r with Ok a => k a w | Raise e => (Raise e, w) end.
Proof. by destruct r. Qed.

Lemma bind_requests_get {B} (r : request) (k : response -> M B) w :
  (requests_get r ≫= k) w =
  match http_get (sent w) r with
  | Some resp => k resp (World (fs w) (sent w ++ [r]))
  | None => (Raise RequestException, World (fs w) (sent w ++ [r]))
  end.
Proof.
  unfold mbind, M_bind, requests_get. by destruct (http_get (sent w) r).
Qed.

Lemma bind_raise_for_status {B} (r : response) (k : unit -> M B) w :
  (raise_for_status r ≫= k) w =
  if error_status r then (Raise RequestException, w) else k tt w.
Proof.
  unfold mbind, M_bind, raise_for_status, error_status.
  by destruct ((400 <=? status_code r) && (status_code r <? 600)).
Qed.

(** A failed poster download raises before anything is written. *)
Lemma download_poster_fails id poster_path w :
  request_fails (http_get (sent w) (poster_request poster_path)) ->
  download_poster id poster_path w =
  (Raise RequestException,
   World (fs w) (sent w ++ [poster_request poster_path])).
Proof.
  intros Hf. unfold download_poster. rewrite bind_requests_get.
  destruct (http_get (sent w) (poster_request poster_path)) as [r|];
    [|done].
  simpl in Hf. rewrite bind_raise_for_status. by rewrite Hf.
Qed.

End Steps.

(** ** [_search_tmdb] *)

(** Closes a case in which the run at hand cannot have returned a record. *)
Ltac no_record :=
  cbn; unfold mret, M_ret; cbn;
  try match goal with e : exn |- _ => destruct e; cbn end;
  intros; congruence.

Section ResolverFacts.
Context {env : Env}.

(** C3, as amended: when the search and the detail request succeed and the
    detail response carries a poster reference, a failure of the poster
    download (no answer, or an error status) makes the resolution return
    absent; nothing is written. *)
Theorem poster_failure_fails_resolution
    title year media_type w r1 results result id r2 poster_path :
  let q1 := search_request title year media_type in
  let q2 := details_request media_type id in
  let q3 := poster_request poster_path in
  http_get (sent w) q1 = Some r1 -> error_status r1 = false ->
  py_get (json_body r1) "results" (JArr []) = Ok results ->
  truthy results = true ->
  py_first results = Ok result ->
  py_getitem result "id" = Ok id ->
  http_get (sent w ++ [q1]) q2 = Some r2 -> error_status r2 = false ->
  py_get (json_body r2) "poster_path" JNull = Ok poster_path ->
  truthy poster_path = true ->
  request_fails (http_get ((sent w ++ [q1]) ++ [q2]) q3) ->
  _search_tmdb title year media_type w
  = (Ok None, World (fs w) (((sent w ++ [q1]) ++ [q2]) ++ [q3])).
Proof.
  intros q1 q2 q3 H1 S1 Hres Tres Hfirst Hid H2 S2 Hpp Tpp Hfail.
  unfold _search_tmdb, try_except, search_body. fold q1.
  rewrite bind_requests_get, H1, bind_raise_for_status, S1.
  rewrite Hres, bind_lift_Ok, Tres. cbn [negb].
  rewrite Hfirst, bind_lift_Ok, Hid, bind_lift_Ok. fold q2.
  rewrite bind_requests_get. simpl sent. rewrite H2.
  rewrite bind_raise_for_status, S2, Hpp, bind_lift_Ok, Tpp.
  unfold mbind at 1, M_bind at 1.
  rewrite download_poster_fails by done. reflexivity.
Qed.

(** The loop over the cast keeps, in order, the entries that carry both
    fields. *)
Lemma cast_loop_Ok (l cl : list json) :
  cast_loop l = Ok cl -> cl = omap entry_of l.
Proof.
  revert cl. induction l as [|a l IH]; intros cl H.
  - by injection H as <-.
  - cbn [cast_loop] in H.
    destruct a as [| b | z | r | s | l' | kv]; try discriminate H.
    + cbn in H. destruct (substring_of "name" s);
        [destruct (substring_of "character" s)|]; try discriminate H;
        cbn; auto.
    + cbn in H. destruct (existsb (is_str "name") l');
        [destruct (existsb (is_str "character") l')|]; try discriminate H;
        cbn; auto.
    + cbn in H. cbn [omap entry_of list_omap].
      destruct (assoc "name" kv) as [n|]; [|cbn; auto].
      destruct (assoc "character" kv) as [c|]; [|cbn; auto].
      destruct (cast_loop l) as [tl|] eqn:E; [|discriminate H].
      cbn in H. injection H as <-. cbn. f_equal. auto.
Qed.

(** On a list of dicts the loop does not raise. *)
Lemma cast_loop_dicts (l : list json) :
  Forall (fun a => exists kv, a = JObj kv) l ->
  cast_loop l = Ok (omap entry_of l).
Proof.
  induction 1 as [|a l [kv ->] _ IH]; [done|].
  cbn [cast_loop]. cbn.
  destruct (assoc "name" kv) as [n|]; [|cbn; auto].
  destruct (assoc "character" kv) as [c|]; [|cbn; auto].
  rewrite IH. reflexivity.
Qed.

(** The loop over the crew keeps, in order, the names of the entries whose
    job is Director or Creator. *)
Lemma crew_loop_Ok (l dl : list json) :
  crew_loop l = Ok dl -> dl = omap (name_with_job ["Director"; "Creator"]) l.
Proof.
  revert dl. induction l as [|a l IH]; intros dl H.
  - by injection H as <-.
  - cbn [crew_loop] in H.
    destruct a as [| b | z | r | s | l' | kv]; try discriminate H.
    cbn in H. cbn [omap list_omap name_with_job existsb].
    rewrite orb_false_r.
    destruct (is_str "Director" (default JNull (assoc "job" kv))
              || is_str "Creator" (default JNull (assoc "job" kv))).
    + destruct (assoc "name" kv) as [n|]; [|discriminate H].
      destruct (crew_loop l) as [tl|] eqn:E; [|discriminate H].
      cbn in H. injection H as <-. f_equal. auto.
    + auto.
Qed.

(** What a record built from a detail response holds. *)
Lemma build_record_inv title year media_type detailed_info lp md :
  build_record title year media_type detailed_info lp = Ok md ->
  exists cast_list directors,
    cast_of detailed_info = Ok cast_list
    /\ directors_of detailed_info = Ok directors
    /\ py_getitem md "cast" = Ok (JArr cast_list)
    /\ py_getitem md "directors" = Ok (JArr directors)
    /\ py_getitem md "poster_path" = Ok lp
    /\ truthy md = true.
Proof.
  unfold build_record. intros H.
  repeat match type of H with
         | (mbind _ ?m) = Ok _ =>
             let x := fresh "x" in
             let E := fresh "E" in
             destruct m as [x|] eqn:E; [|discriminate H];
             cbn [mbind result_bind Py.bind] in H
         end.
  injection H as <-. eauto 10.
Qed.

(** A record returned by [_search_tmdb] is built from the detail response
    that the catalog gave for the first search result. *)
Lemma search_tmdb_record title year media_type w md w' :
  _search_tmdb title year media_type w = (Ok (Some md), w') ->
  exists id r2 lp,
    http_get (sent w ++ [search_request title year media_type])
             (details_request media_type id) = Some r2
    /\ build_record title year media_type (json_body r2) lp = Ok md.
Proof.
  unfold _search_tmdb, try_except, search_body.
  rewrite bind_requests_get.
  destruct (http_get (sent w) _) as [r1|]; [|no_record].
  rewrite bind_raise_for_status.
  destruct (error_status r1); [no_record|].
  rewrite bind_lift.
  destruct (py_get (json_body r1) "results" (JArr [])) as [results|];
    [|no_record].
  destruct (truthy results); cbn [negb]; [|no_record].
  rewrite bind_lift. destruct (py_first results) as [result|]; [|no_record].
  rewrite bind_lift. destruct (py_getitem result "id") as [id|]; [|no_record].
  rewrite bind_requests_get. cbn [sent].
  destruct (http_get (sent w ++ _) (details_request media_type id))
    as [r2|] eqn:H2; [|no_record].
  rewrite bind_raise_for_status.
  destruct (error_status r2); [no_record|].
  rewrite bind_lift.
  destruct (py_get (json_body r2) "poster_path" JNull) as [pp|];
    [|no_record].
  unfold mbind at 1, M_bind at 1.
  destruct ((if truthy pp then download_poster id pp else mret JNull) _)
    as [[lp|e] w1]; [|destruct e; no_record].
  rewrite bind_lift.
  destruct (build_record title year media_type (json_body r2) lp)
    as [md'|e] eqn:Hb; [|destruct e; no_record].
  cbn. intros [= <- <-]. eauto.
Qed.

(** Every record the resolver returns passes the test [if metadata]. *)
Lemma search_tmdb_record_truthy title year media_type w md w' :
  _search_tmdb title year media_type w = (Ok (Some md), w') ->
  truthy md = true.
Proof.
  intros H. apply search_tmdb_record in H as (id & r2 & lp & _ & Hb).
  by apply build_record_inv in Hb as (? & ? & ? & ? & ? & ? & ? & ?).
Qed.

(** C5, as amended: the cast of the record is made of the entries, among the
    first 5 of the credits cast list, that carry both a name and a character,
    in the order of the catalog; an entry among the first 5 that lacks a field
    is skipped and still counts toward the cap. *)
Theorem record_cast_among_first_five
    title year media_type detailed_info lp md credits cast :
  build_record title year media_type detailed_info lp = Ok md ->
  py_get detailed_info "credits" (JObj []) = Ok credits ->
  py_get credits "cast" (JArr []) = Ok (JArr cast) ->
  py_getitem md "cast" = Ok (JArr (omap entry_of (take 5 cast))).
Proof.
  intros Hb Hc Hcast.
  apply build_record_inv in Hb as (cl & ds & Hcl & _ & Hmd & _).
  rewrite Hmd. do 2 f_equal.
  unfold cast_of in Hcl. rewrite Hc in Hcl. cbn [mbind result_bind Py.bind] in Hcl.
  rewrite Hcast in Hcl. cbn in Hcl.
  by apply cast_loop_Ok.
Qed.

(** C6, as amended: the directors of the record are the names of the crew
    entries whose job is Director or Creator, whatever the kind of the query,
    in the order of the catalog. *)
Theorem record_directors_any_kind
    title year media_type detailed_info lp md credits crew :
  build_record title year media_type detailed_info lp = Ok md ->
  py_get detailed_info "credits" (JObj []) = Ok credits ->
  py_get credits "crew" (JArr []) = Ok (JArr crew) ->
  py_getitem md "directors"
  = Ok (JArr (omap (name_with_job ["Director"; "Creator"]) crew)).
Proof.
  intros Hb Hc Hcrew.
  apply build_record_inv in Hb as (cl & ds & _ & Hds & _ & Hmd & _).
  rewrite Hmd. do 2 f_equal.
  unfold directors_of in Hds. rewrite Hc in Hds.
  cbn [mbind result_bind Py.bind] in Hds.
  rewrite Hcrew in Hds. cbn in Hds.
  by apply crew_loop_Ok.
Qed.

End ResolverFacts.

(** ** [_apply_metadata_to_file] *)

Section EmbedderFacts.
Context {env : Env}.

(** The temporary output is never the file itself: its name is longer. *)
Lemma temp_output_ne (file_path : path) : temp_output file_path <> file_path.
Proof.
  unfold temp_output, path_name. intros H.
  assert (Hl : last file_path
               = Some ("temp_" +:+ default EmptyString (last file_path))).
  { rewrite <- H at 1. apply last_snoc. }
  destruct (last file_path) as [n|]; [|done].
  injection Hl as Hl. apply (f_equal String.length) in Hl.
  change (String.length ("temp_" +:+ n)) with (5 + String.length n)%nat in Hl.
  lia.
Qed.

Lemma after_tool_original file_path output w :
  fs (after_tool file_path output w) !! file_path = fs w !! file_path.
Proof.
  destruct output as [c|]; [|done]. simpl.
  apply lookup_insert_ne, temp_output_ne.
Qed.

(** A non-zero exit status: the call reports failure and the world is the one
    the tool left. *)
Lemma apply_nonzero_exit file_path metadata w cmd code err output :
  ffmpeg_command file_path metadata (fs w) = Ok cmd ->
  run_ffmpeg cmd (fs w) = Exited code err output ->
  code <> 0 ->
  _apply_metadata_to_file file_path metadata w
  = (Ok false, after_tool file_path output w).
Proof.
  intros Hcmd Hrun Hcode.
  unfold _apply_metadata_to_file, try_except, apply_body.
  unfold mbind at 1, M_bind at 1, get_fs.
  rewrite Hcmd, bind_lift_Ok.
  unfold mbind at 1, M_bind at 1, subprocess_run. rewrite Hrun.
  cbn [fst]. destruct (Z.eqb_spec code 0) as [?|_]; [done|].
  cbn [negb]. unfold after_tool. by destruct output.
Qed.

(** C1: when the remux invocation exits with a non-zero status, the call
    returns failure and the file at the original path is what it was: neither
    removed nor rewritten. *)
Theorem nonzero_exit_keeps_original file_path metadata w cmd code err output :
  ffmpeg_command file_path metadata (fs w) = Ok cmd ->
  run_ffmpeg cmd (fs w) = Exited code err output ->
  code <> 0 ->
  exists w',
    _apply_metadata_to_file file_path metadata w = (Ok false, w')
    /\ fs w' !! file_path = fs w !! file_path.
Proof.
  intros Hcmd Hrun Hcode. eexists. split.
  - by eapply apply_nonzero_exit.
  - apply after_tool_original.
Qed.

(** C10, as amended: when the remux invocation exits with a non-zero status,
    the call returns failure and does not touch the temporary output: what the
    tool wrote there stays on disk. *)
Theorem nonzero_exit_leaves_temp_output
    file_path metadata w cmd code err output :
  ffmpeg_command file_path metadata (fs w) = Ok cmd ->
  run_ffmpeg cmd (fs w) = Exited code err output ->
  code <> 0 ->
  exists w',
    _apply_metadata_to_file file_path metadata w = (Ok false, w')
    /\ fs w' !! temp_output file_path
       = match output with
         | Some content => Some content
         | None => fs w !! temp_output file_path
         end.
Proof.
  intros Hcmd Hrun Hcode. eexists. split.
  - by eapply apply_nonzero_exit.
  - destruct output as [c|]; [|done]. simpl. apply lookup_insert_eq.
Qed.

(** X11: the invariant of the embedder: a call that reports failure, for whatever
    reason, leaves the file at the original path as it was. *)
Lemma apply_failure_keeps_original file_path metadata w w' :
  _apply_metadata_to_file file_path metadata w = (Ok false, w') ->
  fs w' !! file_path = fs w !! file_path.
Proof.
  unfold _apply_metadata_to_file, try_except, apply_body.
  unfold mbind at 1, M_bind at 1, get_fs. rewrite bind_lift.
  destruct (ffmpeg_command file_path metadata (fs w)) as [cmd|e].
  2:{ cbn. by intros [= <-]. }
  unfold mbind at 1, M_bind at 1, subprocess_run.
  destruct (run_ffmpeg cmd (fs w)) as [|code err output].
  { cbn. by intros [= <-]. }
  fold (after_tool file_path output w). cbn [fst].
  destruct (negb (code =? 0)).
  { cbn. intros [= <-]. apply after_tool_original. }
  unfold mbind, M_bind, os_replace.
  destruct (fs (after_tool file_path output w) !! temp_output file_path).
  2:{ cbn. intros [= <-]. apply after_tool_original. }
  destruct (replace_refused _ _).
  - cbn. intros [= <-]. apply after_tool_original.
  - cbn. intros [=].
Qed.

(** The call never raises and sends no request. *)
Lemma apply_body_sent file_path metadata w :
  sent (snd (apply_body file_path metadata w)) = sent w.
Proof.
  unfold apply_body. unfold mbind at 1, M_bind at 1, get_fs.
  rewrite bind_lift.
  destruct (ffmpeg_command file_path metadata (fs w)) as [cmd|]; [|done].
  unfold mbind at 1, M_bind at 1, subprocess_run.
  destruct (run_ffmpeg cmd (fs w)) as [|code err output]; [done|].
  cbn [fst].
  assert (Hs : sent (match output with
                     | Some content =>
                         with_fs (insert (temp_output file_path) content) w
                     | None => w
                     end) = sent w) by (by destruct output).
  destruct (negb (code =? 0)); [done|].
  unfold mbind, M_bind, os_replace.
  destruct (fs _ !! temp_output file_path); [|done].
  by destruct (replace_refused _ _).
Qed.

Lemma apply_metadata_total file_path metadata w :
  exists b w',
    _apply_metadata_to_file file_path metadata w = (Ok b, w')
    /\ sent w' = sent w.
Proof.
  unfold _apply_metadata_to_file, try_except.
  pose proof (apply_body_sent file_path metadata w) as Hs.
  destruct (apply_body file_path metadata w) as [[b|e] w']; simpl in Hs.
  - eauto.
  - cbn. eauto.
Qed.

End EmbedderFacts.

(** ** [_load_metadata] *)

Section CacheFacts.
Context {env : Env}.

Lemma load_metadata_missing (w : world) :
  fs w !! metadata_file = None -> _load_metadata w = (Ok (JObj []), w).
Proof.
  unfold _load_metadata, try_except, mbind, M_bind, get_fs. by intros ->.
Qed.

Lemma load_metadata_malformed (w : world) content :
  fs w !! metadata_file = Some content ->
  json_load content = Raise JSONDecodeError ->
  _load_metadata w = (Ok (JObj []), w).
Proof.
  unfold _load_metadata, try_except, mbind, M_bind, get_fs, lift.
  by intros -> ->.
Qed.

Lemma load_metadata_decoded (w : world) content v :
  fs w !! metadata_file = Some content ->
  json_load content = Ok v ->
  _load_metadata w = (Ok v, w).
Proof.
  unfold _load_metadata, try_except, mbind, M_bind, get_fs, lift.
  by intros -> ->.
Qed.

(** C9, as amended: a missing index gives an empty cache; an index that
    [json.load] rejects as malformed JSON gives an empty cache; an index that
    decodes is returned as decoded, whatever its shape. Loading changes
    nothing. *)
Theorem load_metadata_cases (w : world) :
  (fs w !! metadata_file = None -> _load_metadata w = (Ok (JObj []), w))
  /\ (forall content,
        fs w !! metadata_file = Some content ->
        json_load content = Raise JSONDecodeError ->
        _load_metadata w = (Ok (JObj []), w))
  /\ (forall content v,
        fs w !! metadata_file = Some content ->
        json_load content = Ok v ->
        _load_metadata w = (Ok v, w)).
Proof.
  split; [|split].
  - apply load_metadata_missing.
  - apply load_metadata_malformed.
  - apply load_metadata_decoded.
Qed.

(** Any other exception of the decoding leaves the function. *)
Lemma load_metadata_propagates (w : world) content e :
  fs w !! metadata_file = Some content ->
  json_load content = Raise e -> e <> JSONDecodeError ->
  _load_metadata w = (Raise e, w).
Proof.
  unfold _load_metadata, try_except.
  unfold mbind, M_bind, get_fs, lift.
  intros -> -> He. by destruct e.
Qed.

End CacheFacts.

(** ** [scan_directory] *)

Section OrchestratorFacts.
Context {env : Env}.

(** A file whose record is in the cache is embedded without a lookup, and the
    cache stays as it is. *)
Lemma process_file_cached rel cache w :
  cached cache (path_str rel) ->
  exists w', process_file rel cache w = (Ok cache, w') /\ sent w' = sent w.
Proof.
  intros (kv & v & -> & Hv & Ht).
  unfold process_file. cbn [py_get]. rewrite Hv.
  change (default JNull (Some v)) with v.
  rewrite bind_lift_Ok. cbn beta. rewrite Ht. cbn [negb].
  unfold mbind at 1, M_bind at 1, mret at 1, M_ret at 1. cbn [snd fst].
  rewrite Ht.
  destruct (apply_metadata_total (directory ++ rel) v w)
    as (b & w' & Hrun & Hs).
  unfold mbind, M_bind. rewrite Hrun. eauto.
Qed.

Lemma scan_loop_cached files cache w :
  (forall rel, rel ∈ files -> cached cache (path_str rel)) ->
  exists w', scan_loop files cache w = (Ok cache, w') /\ sent w' = sent w.
Proof.
  revert w. induction files as [|rel files IH]; intros w Hall.
  - cbn. eauto.
  - destruct (process_file_cached rel cache w) as (w1 & H1 & S1).
    { apply Hall. left. }
    destruct (IH w1) as (w2 & H2 & S2).
    { intros r Hr. apply Hall. by right. }
    exists w2. split; [|congruence].
    cbn [scan_loop]. unfold mbind, M_bind. by rewrite H1.
Qed.

(** C4: a run that starts from the index a previous flush wrote (the file
    holds [content], which decodes to [cache], which is written back as
    [content]) and finds a record in it for every eligible file sends no
    request and leaves the index file as it was. *)
Theorem second_run_idempotent (w : world) content cache :
  fs w !! metadata_file = Some content ->
  json_load content = Ok cache ->
  json_dump cache = content ->
  (forall rel, rel ∈ media_files (fs w) -> cached cache (path_str rel)) ->
  exists w',
    run w = (Ok cache, w')
    /\ sent w' = sent w
    /\ fs w' !! metadata_file = Some content.
Proof.
  intros Hfile Hload Hdump Hall.
  pose proof (load_metadata_decoded w content cache Hfile Hload) as Hl.
  destruct (scan_loop_cached (media_files (fs w)) cache w Hall)
    as (w1 & Hscan & Hs).
  exists (with_fs (insert metadata_file (json_dump cache)) w1).
  split; [|split].
  - unfold run. unfold mbind at 1, M_bind at 1. rewrite Hl.
    unfold scan_directory.
    unfold mbind at 1, M_bind at 1, get_fs.
    unfold mbind at 1, M_bind at 1. rewrite Hscan.
    reflexivity.
  - exact Hs.
  - simpl. rewrite Hdump. apply lookup_insert_eq.
Qed.

End OrchestratorFacts.

(** ** The sample environment at work *)

Section Runs.
Import Sample.

(** C2: a crew entry with a director's job and no name, or a detail response
    without an id, makes [_search_tmdb] raise [KeyError] to its caller, and
    the scan that called it stops without writing the index. *)
Theorem search_tmdb_raises_on_missing_field :
  fst (_search_tmdb (env := catalog_env detail_no_name None)
         "The Matrix" (Some 1999) movie empty_world) = Raise KeyError
  /\ fst (_search_tmdb (env := catalog_env detail_no_id None)
            "The Matrix" (Some 1999) movie empty_world) = Raise KeyError
  /\ fst (run (env := catalog_env detail_no_name None) one_movie)
     = Raise KeyError
  /\ fs (snd (run (env := catalog_env detail_no_name None) one_movie))
       !! index_file = None.
Proof. repeat split; vm_compute; reflexivity. Qed.

(** C3, as stated, fails: the search and the detail request succeed, the
    detail response has a poster reference, the download gets no answer, and
    the resolution returns no record. *)
Lemma poster_failure_is_not_degraded :
  let E := catalog_env detail_with_poster None in
  let q1 := search_request (env := E) "The Matrix" (Some 1999) movie in
  let q2 := details_request (env := E) movie (JInt 603) in
  let q3 := poster_request (env := E) (JStr "/matrix.jpg") in
  http_get (Env := E) [] q1 = found search_results
  /\ http_get (Env := E) [q1] q2 = found detail_with_poster
  /\ py_get detail_with_poster "poster_path" JNull = Ok (JStr "/matrix.jpg")
  /\ http_get (Env := E) [q1; q2] q3 = None
  /\ fst (_search_tmdb (env := E) "The Matrix" (Some 1999) movie empty_world)
     = Ok None.
Proof. repeat split; vm_compute; reflexivity. Qed.

Lemma poster_failure_fails_resolution_witness :
  let E := catalog_env detail_with_poster (Some (Response 404 JNull EmptyString)) in
  fst (_search_tmdb (env := E) "The Matrix" (Some 1999) movie empty_world)
  = Ok None.
Proof.
  intros E.
  rewrite (poster_failure_fails_resolution (env := E)
             "The Matrix" (Some 1999) movie empty_world
             (Response 200 search_results EmptyString)
             (JArr [JObj [("id", JInt 603)]]) (JObj [("id", JInt 603)])
             (JInt 603) (Response 200 detail_with_poster EmptyString)
             (JStr "/matrix.jpg"));
    reflexivity.
Defined.

(** C5, as stated, fails: the first of six entries has no character, the
    record keeps the four complete ones among the first five, and the sixth,
    complete, is left out. *)
Lemma record_cast_is_not_first_five_complete :
  exists md cast_list,
    fst (_search_tmdb (env := catalog_env detail_cast None)
           "The Matrix" (Some 1999) movie empty_world) = Ok (Some md)
    /\ py_getitem md "cast" = Ok (JArr cast_list)
    /\ length cast_list = 4%nat
    /\ length (cast_as_specified cast_of_six) = 5%nat
    /\ cast_list <> cast_as_specified cast_of_six.
Proof.
  eexists _, _. split; [vm_compute; reflexivity|].
  split; [vm_compute; reflexivity|].
  repeat split. intros H. apply (f_equal length) in H. discriminate H.
Qed.

Lemma record_cast_among_first_five_witness :
  exists md,
    build_record "The Matrix" (Some 1999) movie detail_cast JNull = Ok md
    /\ py_getitem md "cast" = Ok (JArr (omap entry_of (take 5 cast_of_six))).
Proof.
  eexists. split; [reflexivity|].
  apply (record_cast_among_first_five
           "The Matrix" (Some 1999) movie detail_cast JNull _
           (JObj [("cast", JArr cast_of_six)]) cast_of_six);
    reflexivity.
Defined.

(** C6, as stated, fails: on a movie query the crew entry whose job is
    Creator is among the directors of the record. *)
Lemma record_directors_include_creator_of_movie :
  exists md,
    fst (_search_tmdb (env := catalog_env detail_crew None)
           "The Matrix" (Some 1999) movie empty_world) = Ok (Some md)
    /\ py_getitem md "directors"
       = Ok (JArr [JStr "Lilly Wachowski"; JStr "Lana Wachowski"])
    /\ directors_as_specified movie crew_of_two = [JStr "Lana Wachowski"]
    /\ py_getitem md "directors"
       <> Ok (JArr (directors_as_specified movie crew_of_two)).
Proof.
  eexists. split; [vm_compute; reflexivity|].
  split; [vm_compute; reflexivity|].
  split; [vm_compute; reflexivity|].
  vm_compute. discriminate.
Qed.

Lemma record_directors_any_kind_witness :
  exists md,
    build_record "The Matrix" (Some 1999) movie detail_crew JNull = Ok md
    /\ py_getitem md "directors"
       = Ok (JArr (omap (name_with_job ["Director"; "Creator"]) crew_of_two)).
Proof.
  eexists. split; [reflexivity|].
  apply (record_directors_any_kind
           "The Matrix" (Some 1999) movie detail_crew JNull _
           (JObj [("crew", JArr crew_of_two)]) crew_of_two);
    reflexivity.
Defined.

Lemma nonzero_exit_keeps_original_witness :
  exists w',
    _apply_metadata_to_file (env := failing_tool_env)
      matrix_file matrix_record one_movie = (Ok false, w')
    /\ fs w' !! matrix_file = fs one_movie !! matrix_file.
Proof.
  eapply (nonzero_exit_keeps_original (env := failing_tool_env)
            matrix_file matrix_record one_movie _ 1).
  - reflexivity.
  - reflexivity.
  - discriminate.
Defined.

(** C10, as stated, fails: the tool exits with status 1 after it has written
    part of its output; the call returns failure and the partial output is
    still at the temporary path. *)
Lemma failed_remux_leaves_temp_file :
  let r := _apply_metadata_to_file (env := failing_tool_env)
             matrix_file matrix_record one_movie in
  fs one_movie !! matrix_temp = None
  /\ fst r = Ok false
  /\ fs (snd r) !! matrix_temp = Some "partial".
Proof. repeat split; vm_compute; reflexivity. Qed.

Lemma nonzero_exit_leaves_temp_output_witness :
  exists w',
    _apply_metadata_to_file (env := failing_tool_env)
      matrix_file matrix_record one_movie = (Ok false, w')
    /\ fs w' !! temp_output (env := failing_tool_env) matrix_file
       = Some "partial".
Proof.
  eapply (nonzero_exit_leaves_temp_output (env := failing_tool_env)
            matrix_file matrix_record one_movie _ 1 _ (Some "partial")).
  - reflexivity.
  - reflexivity.
  - discriminate.
Defined.

(** C9, as stated, fails: an index that holds a JSON list is returned as that
    list, not as an empty cache, and the scan that follows raises on its
    first lookup. *)
Lemma load_metadata_keeps_other_shapes :
  fst (_load_metadata (env := offline_env) index_is_a_list)
  = Ok (JArr [JInt 1])
  /\ fst (run (env := offline_env) index_is_a_list) = Raise AttributeError.
Proof. split; vm_compute; reflexivity. Qed.

Lemma load_metadata_cases_witness :
  _load_metadata (env := offline_env) one_movie = (Ok (JObj []), one_movie)
  /\ _load_metadata (env := offline_env) index_is_truncated
     = (Ok (JObj []), index_is_truncated)
  /\ _load_metadata (env := offline_env) after_first_run
     = (Ok cache_one, after_first_run).
Proof.
  split; [|split].
  - destruct (load_metadata_cases (env := offline_env) one_movie)
      as (H & _ & _).
    apply H. reflexivity.
  - destruct (load_metadata_cases (env := offline_env) index_is_truncated)
      as (_ & H & _).
    apply (H "{ ["); vm_compute; reflexivity.
  - destruct (load_metadata_cases (env := offline_env) after_first_run)
      as (_ & _ & H).
    apply (H (Sample.dump cache_one)); vm_compute; reflexivity.
Defined.

(** An index that is no UTF-8 text makes the constructor raise. *)
Example load_metadata_binary_index :
  fst (_load_metadata (env := offline_env) index_is_binary)
  = Raise UnicodeDecodeError.
Proof. vm_compute. reflexivity. Qed.

Lemma second_run_idempotent_witness :
  exists w',
    run (env := offline_env) after_first_run = (Ok cache_one, w')
    /\ sent w' = []
    /\ fs w' !! index_file = Some (Sample.dump cache_one).
Proof.
  apply (second_run_idempotent (env := offline_env)
           after_first_run (Sample.dump cache_one) cache_one).
  - vm_compute. reflexivity.
  - vm_compute. reflexivity.
  - reflexivity.
  - intros rel Hrel.
    assert (Hfiles : media_files (env := offline_env) (fs after_first_run)
                     = [["The.Matrix.1999.1080p.mkv"]])
      by (vm_compute; reflexivity).
    rewrite Hfiles in Hrel. apply list_elem_of_singleton in Hrel as ->.
    exists [("The.Matrix.1999.1080p.mkv", matrix_record)], matrix_record.
    repeat split.
Defined.

(** The first run on the one movie, online, resolves it, embeds the record and
    writes the index; a second run, with the network down, sends nothing and
    writes the same index. *)
Example first_and_second_run :
  let w1 := snd (run (env := catalog_env detail_crew None) one_movie) in
  let w2 := snd (run (env := offline_env) (World (fs w1) [])) in
  length (sent w1) = 2%nat
  /\ sent w2 = []
  /\ is_Some (fs w1 !! index_file)
  /\ fs w2 !! index_file = fs w1 !! index_file.
Proof. repeat split; vm_compute; eauto. Qed.

End Runs.

(** * Further properties *)

(** ** The matcher: what a match looks like *)

Section RegexMore.
Import Regex.

Lemma try_down_Some_inv {A} (k : list ascii -> option A) s lo d n r :
  try_down k s lo d = Some (n, r) ->
  k (drop n s) = Some r /\ (lo <= n <= lo + d)%nat.
Proof.
  induction d as [|d IH]; simpl.
  - destruct (k (drop (lo + 0) s)) eqn:E; [|done].
    intros [= <- <-]. split; [done | lia].
  - destruct (k (drop (lo + S d) s)) eqn:E.
    + intros [= <- <-]. split; [done | lia].
    + intros H. destruct (IH H) as [? ?]. split; [done | lia].
Qed.

Lemma try_down_None {A} (k : list ascii -> option A) s lo d :
  (forall j, (j <= d)%nat -> k (drop (lo + j) s) = None) ->
  try_down k s lo d = None.
Proof.
  induction d as [|d IH]; intros H; simpl.
  - by rewrite (H O).
  - rewrite (H (S d)) by lia. apply IH. intros j Hj. apply H. lia.
Qed.

(** Greediness: the longest admissible length with a match is the one
    taken. *)
Lemma try_down_greatest {A} (k : list ascii -> option A) s lo d j r :
  (j <= d)%nat -> k (drop (lo + j) s) = Some r ->
  (forall j', (j < j' <= d)%nat -> k (drop (lo + j') s) = None) ->
  try_down k s lo d = Some ((lo + j)%nat, r).
Proof.
  induction d as [|d IH]; intros Hj Hk Hlater; simpl.
  - assert (j = O) by lia. subst j. by rewrite Hk.
  - destruct (decide (j = S d)) as [->|Hne].
    + by rewrite Hk.
    + rewrite (Hlater (S d)) by lia.
      apply IH; [lia | done |]. intros j' Hj'. apply Hlater. lia.
Qed.

Lemma re_match_at_least_greatest c lo cap p s j r :
  (lo <= j)%nat -> (j <= span_len c s)%nat ->
  re_match p (drop j s) = Some r ->
  (forall j', (j < j' <= span_len c s)%nat -> re_match p (drop j' s) = None) ->
  re_match (Atom c (AtLeast lo) cap :: p) s
  = Some (if cap then take j s :: r else r).
Proof.
  intros Hlo Hj Hk Hlater. simpl.
  destruct (Nat.leb_spec lo (span_len c s)) as [_|?]; [|lia].
  rewrite (try_down_greatest _ _ _ _ (j - lo) r).
  - simpl. unfold push. simpl. by replace (lo + (j - lo))%nat with j by lia.
  - lia.
  - by replace (lo + (j - lo))%nat with j by lia.
  - intros j' Hj'. apply Hlater. lia.
Qed.

Lemma re_match_at_least_None c lo cap p s :
  (forall j, re_match p (drop j s) = None) ->
  re_match (Atom c (AtLeast lo) cap :: p) s = None.
Proof.
  intros H. simpl. destruct (lo <=? span_len c s)%nat; [|done].
  by rewrite try_down_None.
Qed.

(** A single-character atom fails on the empty string and on a string that
    starts with another character. *)
Lemma re_match_ch_None c p s :
  match s with [] => True | x :: _ => c x = false end ->
  re_match (ch c :: p) s = None.
Proof.
  destruct s as [|x s]; simpl; [done|]. by intros ->.
Qed.

Lemma re_match_ch c p x s :
  c x = true -> re_match (ch c :: p) (x :: s) = re_match p s.
Proof.
  intros Hx. cbn [re_match qnt cls ch span_len]. rewrite Hx.
  cbn [Nat.leb]. change (drop 1 (x :: s)) with s.
  by destruct (re_match p s).
Qed.

Lemma re_match_exactly c n cap p s :
  (n <= span_len c s)%nat ->
  re_match (Atom c (Exactly n) cap :: p) s
  = (fun gs => if cap then take n s :: gs else gs) <$> re_match p (drop n s).
Proof.
  intros Hn. cbn [re_match qnt cls].
  by destruct (Nat.leb_spec n (span_len c s)) as [_|?]; [|lia].
Qed.

Lemma re_match_exactly_short c n cap p s :
  (span_len c s < n)%nat -> re_match (Atom c (Exactly n) cap :: p) s = None.
Proof.
  intros Hn. cbn [re_match qnt cls].
  by destruct (Nat.leb_spec n (span_len c s)) as [?|_]; [lia|].
Qed.

Lemma head_of_drop_Forall (P : ascii -> Prop) (l : list ascii) n :
  Forall P l ->
  match drop n l with [] => True | x :: _ => P x end.
Proof.
  intros H. apply (Forall_drop _ n) in H.
  destruct (drop n l); [done|]. by inversion H.
Qed.

(** The characters an atom takes are in its class. *)
Lemma take_span (c : ascii -> bool) (s : list ascii) n :
  (n <= span_len c s)%nat ->
  length (take n s) = n /\ Forall (fun x => c x = true) (take n s).
Proof.
  revert n. induction s as [|x s IH]; intros n Hn; simpl in Hn.
  - assert (n = O) by lia. subst n. by split.
  - destruct n as [|n]; [by split|]. simpl.
    destruct (c x) eqn:Hx; [|lia].
    destruct (IH n) as [Hl Hf]; [lia|]. split; [by rewrite Hl | by constructor].
Qed.

End RegexMore.

(** ** [_parse_filename]: the four cases *)

Section ParserMore.
Import Regex.

Lemma list_ascii_roundtrip (l : list ascii) :
  list_ascii_of_string (string_of_list_ascii l) = l.
Proof. apply list_ascii_of_string_of_list_ascii. Qed.

Lemma replace_dots_no_period (l : list ascii) : "."%char ∉ replace_dots l.
Proof.
  unfold replace_dots. induction l as [|c l IH]; simpl.
  - apply not_elem_of_nil.
  - apply not_elem_of_cons. split; [|done].
    destruct (Ascii.eqb_spec c "."); [done|]. congruence.
Qed.

Lemma clean_title_no_period (g : list ascii) :
  "."%char ∉ list_ascii_of_string (clean_title g).
Proof.
  unfold clean_title. rewrite list_ascii_roundtrip. apply replace_dots_no_period.
Qed.

(** X3: whatever the file name, the title that is looked up has no period. *)
Theorem parse_title_has_no_period (filename : string) :
  "."%char ∉ list_ascii_of_string (_parse_filename filename).1.1.
Proof.
  unfold _parse_filename.
  repeat match goal with
         | |- context [match ?x with _ => _ end] => destruct x
         end; simpl;
    try apply clean_title_no_period;
    rewrite list_ascii_roundtrip; apply replace_dots_no_period.
Qed.

Lemma digit_value (c : ascii) :
  digit c = true -> 0 <= Z.of_N (code c) - 48 <= 9.
Proof.
  unfold digit. intros H. apply andb_true_iff in H as [H1 H2].
  apply N.leb_le in H1, H2. lia.
Qed.

Lemma fold_digits_bound (g : list ascii) (acc : Z) :
  Forall (fun c => digit c = true) g -> 0 <= acc ->
  acc * 10 ^ Z.of_nat (length g)
  <= fold_left (fun a c => 10 * a + (Z.of_N (code c) - 48)) g acc
  < (acc + 1) * 10 ^ Z.of_nat (length g).
Proof.
  intros H. revert acc. induction H as [|c g Hc _ IH]; intros acc Hacc.
  - simpl. lia.
  - cbn [fold_left length]. apply digit_value in Hc.
    specialize (IH (10 * acc + (Z.of_N (code c) - 48))).
    rewrite Nat2Z.inj_succ, Z.pow_succ_r by lia.
    assert (0 < 10 ^ Z.of_nat (length g)) by (apply Z.pow_pos_nonneg; lia).
    nia.
Qed.

Lemma int_of_digits_bound (g : list ascii) :
  Forall (fun c => digit c = true) g ->
  0 <= int_of_digits g < 10 ^ Z.of_nat (length g).
Proof.
  intros H. unfold int_of_digits.
  pose proof (fold_digits_bound g 0 H). lia.
Qed.

(** The year group of either movie pattern is made of four digits. *)
Lemma year_group_four_digits c1 p s g1 g2 gs :
  re_match (Atom any_char (AtLeast 1) true :: ch c1
            :: Atom digit (Exactly 4) true :: p) s = Some (g1 :: g2 :: gs) ->
  length g2 = 4%nat /\ Forall (fun c => digit c = true) g2.
Proof.
  cbn [re_match qnt cls].
  destruct (1 <=? span_len any_char s)%nat; [|done].
  destruct (try_down _ s 1 _) as [[n r]|] eqn:E; [|done].
  apply try_down_Some_inv in E as [E _].
  cbn [fmap option_fmap option_map push captured fst snd]. intros [= _ ->].
  cbn [re_match qnt cls ch] in E.
  destruct (1 <=? span_len c1 (drop n s))%nat; [|done].
  destruct (4 <=? span_len digit (drop 1 (drop n s)))%nat eqn:H4; [|done].
  apply Nat.leb_le in H4.
  destruct (re_match p _) as [r'|]; [|done].
  cbn in E. injection E as <-.
  by apply take_span.
Qed.

(** X4: a year, when the parser gives one, has at most four digits, and only
    movies get one. *)
Theorem parse_year_range (filename : string) (y : Z) :
  (_parse_filename filename).1.2 = Some y ->
  0 <= y <= 9999 /\ (_parse_filename filename).2 = movie.
Proof.
  unfold _parse_filename.
  destruct (re_match movie_pattern1 _) as [[|g1 [|g2 gs]]|] eqn:E1.
  3:{ cbn [fst snd]. intros [= <-].
      apply year_group_four_digits in E1 as [Hl Hd].
      pose proof (int_of_digits_bound g2 Hd) as Hb. rewrite Hl in Hb.
      split; [|done]. change (10 ^ Z.of_nat 4) with 10000 in Hb. lia. }
  all: destruct (re_match movie_pattern2 _) as [[|h1 [|h2 hs]]|] eqn:E2.
  all: try (cbn [fst snd]; intros [= <-];
            apply year_group_four_digits in E2 as [Hl Hd];
            pose proof (int_of_digits_bound h2 Hd) as Hb; rewrite Hl in Hb;
            split; [|done]; change (10 ^ Z.of_nat 4) with 10000 in Hb; lia).
  all: destruct (re_match tv_pattern _) as [[|t1 ts]|]; cbn [fst snd];
    discriminate.
Qed.

Lemma parse_year_range_witness :
  0 <= 2020 <= 9999
  /\ (_parse_filename "Nome do Filme (2020)").2 = movie.
Proof. apply (parse_year_range "Nome do Filme (2020)" 2020). reflexivity. Defined.

Lemma re_match_star_end c s :
  re_match [Atom c (AtLeast 0) false] s = Some [].
Proof.
  cbn [re_match qnt cls]. cbn [Nat.leb].
  rewrite (try_down_greatest _ _ _ _ (span_len c s - 0) []); [done|lia|done|lia].
Qed.

Lemma not_elem_Forall_lit (x : ascii) (l : list ascii) :
  x ∉ l -> Forall (fun c => lit x c = false) l.
Proof.
  intros H. apply Forall_forall. intros c Hc. unfold lit.
  destruct (Ascii.eqb_spec x c); [|done]. by subst.
Qed.

Lemma digit_not_lit (x c : ascii) :
  digit x = false -> digit c = true -> lit x c = false.
Proof.
  intros Hx Hc. unfold lit. destruct (Ascii.eqb_spec x c); [|done]. congruence.
Qed.

(** A stem without an opening parenthesis does not match the first movie
    pattern. *)
Lemma movie_pattern1_needs_parenthesis (s : list ascii) :
  "("%char ∉ s -> re_match movie_pattern1 s = None.
Proof.
  intros H. apply re_match_at_least_None. intros j.
  apply re_match_ch_None.
  apply (head_of_drop_Forall (fun c => lit "(" c = false)).
  by apply not_elem_Forall_lit.
Qed.

Lemma drop_past_prefix (l : list ascii) x k j :
  (length l < j)%nat ->
  drop j (l ++ x :: k) = drop (j - length l - 1) k.
Proof.
  intros Hj. rewrite drop_app_ge by lia.
  destruct (j - length l)%nat as [|n] eqn:E; [lia|].
  cbn [drop]. f_equal. lia.
Qed.

(** X1: the first case of the parser: a title, a year of four digits between
    parentheses, and a rest without another opening parenthesis. The year is
    that number and the title is the text before it, stripped, with its
    periods turned into spaces. *)
Theorem parse_parenthesised_year title a b c d rest :
  title <> [] -> Forall (fun x => any_char x = true) title ->
  digit a = true -> digit b = true -> digit c = true -> digit d = true ->
  "("%char ∉ rest ->
  _parse_filename
    (string_of_list_ascii (title ++ "("%char :: [a; b; c; d] ++ ")"%char :: rest))
  = (clean_title title, Some (int_of_digits [a; b; c; d]), movie).
Proof.
  intros Hne Ht Ha Hb Hc Hd Hrest.
  set (stem := title ++ "("%char :: [a; b; c; d] ++ ")"%char :: rest).
  assert (Hm : re_match movie_pattern1 stem = Some [title; [a; b; c; d]]).
  { unfold movie_pattern1.
    rewrite (re_match_at_least_greatest _ _ _ _ _ (length title) [[a; b; c; d]]).
    - unfold stem. by rewrite take_app_length.
    - destruct title; [done | simpl; lia].
    - by apply span_len_ge.
    - unfold stem. rewrite drop_app_length.
      rewrite re_match_ch by done.
      rewrite re_match_exactly
        by (cbn [app span_len]; rewrite Ha, Hb, Hc, Hd; lia).
      cbn [app take drop].
      rewrite re_match_ch by done. by rewrite re_match_star_end.
    - intros j' [Hj' _]. unfold stem.
      rewrite drop_past_prefix by done.
      apply re_match_ch_None.
      apply (head_of_drop_Forall (fun c => lit "(" c = false)).
      repeat (apply Forall_cons; split;
              [first [by apply digit_not_lit | done]|]).
      by apply not_elem_Forall_lit. }
  unfold _parse_filename. rewrite list_ascii_roundtrip. fold stem.
  by rewrite Hm.
Qed.

Lemma parse_parenthesised_year_witness :
  _parse_filename "Nome.do.Filme (2020) 1080p"
  = ("Nome do Filme", Some 2020, movie).
Proof.
  apply (parse_parenthesised_year (list_ascii_of_string "Nome.do.Filme ")
           "2" "0" "2" "0" (list_ascii_of_string " 1080p")).
  - discriminate.
  - repeat constructor.
  - reflexivity.
  - reflexivity.
  - reflexivity.
  - reflexivity.
  - intros H. repeat (apply elem_of_cons in H as [H|H]; [discriminate H|]).
    by apply elem_of_nil in H.
Defined.

(** X2: the second case of the parser: a title, a year of four digits between two
    periods, and a rest without a period, in a stem without an opening
    parenthesis. *)
Theorem parse_dotted_year title a b c d rest :
  title <> [] -> Forall (fun x => any_char x = true) title ->
  digit a = true -> digit b = true -> digit c = true -> digit d = true ->
  "("%char ∉ title -> "("%char ∉ rest -> "."%char ∉ rest ->
  _parse_filename
    (string_of_list_ascii (title ++ "."%char :: [a; b; c; d] ++ "."%char :: rest))
  = (clean_title title, Some (int_of_digits [a; b; c; d]), movie).
Proof.
  intros Hne Ht Ha Hb Hc Hd Hp1 Hp2 Hrest.
  set (stem := title ++ "."%char :: [a; b; c; d] ++ "."%char :: rest).
  assert (H1 : re_match movie_pattern1 stem = None).
  { apply movie_pattern1_needs_parenthesis. unfold stem.
    rewrite elem_of_app. intros [?|H]; [done|].
    repeat (apply elem_of_cons in H as [H|H];
            [first [discriminate H | subst; discriminate]|]).
    done. }
  assert (Hdot : forall n,
             match drop n rest with
             | [] => True
             | x :: _ => lit "." x = false
             end).
  { intros n. apply (head_of_drop_Forall (fun c => lit "." c = false)).
    by apply not_elem_Forall_lit. }
  assert (Hm : re_match movie_pattern2 stem = Some [title; [a; b; c; d]]).
  { unfold movie_pattern2.
    rewrite (re_match_at_least_greatest _ _ _ _ _ (length title) [[a; b; c; d]]).
    - unfold stem. by rewrite take_app_length.
    - destruct title; [done | simpl; lia].
    - by apply span_len_ge.
    - unfold stem. rewrite drop_app_length.
      rewrite re_match_ch by done.
      rewrite re_match_exactly
        by (cbn [app span_len]; rewrite Ha, Hb, Hc, Hd; lia).
      cbn [app take drop].
      by rewrite re_match_ch by done.
    - intros j' [Hj' _]. unfold stem.
      rewrite drop_past_prefix by done.
      destruct (j' - length title - 1)%nat as [|[|[|[|[|m]]]]]; cbn [app drop].
      1-4: apply re_match_ch_None; by apply digit_not_lit.
      + rewrite re_match_ch by done.
        destruct (Nat.le_gt_cases 4 (span_len digit rest)) as [H4|H4].
        * rewrite re_match_exactly by done.
          rewrite re_match_ch_None; [done | apply Hdot].
        * by apply re_match_exactly_short.
      + apply re_match_ch_None, Hdot. }
  unfold _parse_filename. rewrite list_ascii_roundtrip. fold stem.
  by rewrite H1, Hm.
Qed.

Lemma parse_dotted_year_witness :
  _parse_filename "Nome.do.Filme.2020.1080p"
  = ("Nome do Filme", Some 2020, movie).
Proof.
  apply (parse_dotted_year (list_ascii_of_string "Nome.do.Filme")
           "2" "0" "2" "0" (list_ascii_of_string "1080p")).
  - discriminate.
  - repeat constructor.
  - reflexivity.
  - reflexivity.
  - reflexivity.
  - reflexivity.
  - intros H. repeat (apply elem_of_cons in H as [H|H]; [discriminate H|]).
    by apply elem_of_nil in H.
  - intros H. repeat (apply elem_of_cons in H as [H|H]; [discriminate H|]).
    by apply elem_of_nil in H.
  - intros H. repeat (apply elem_of_cons in H as [H|H]; [discriminate H|]).
    by apply elem_of_nil in H.
Defined.

End ParserMore.

(** ** [_search_tmdb]: absent results, failures, and what a record holds *)

Section ResolverMore.
Context {env : Env}.

(** A search that fails sends one request and returns absent. *)
Lemma search_fails_run title year media_type w :
  request_fails (http_get (sent w) (search_request title year media_type)) ->
  _search_tmdb title year media_type w
  = (Ok None, World (fs w) (sent w ++ [search_request title year media_type])).
Proof.
  intros Hf. unfold _search_tmdb, try_except, search_body.
  rewrite bind_requests_get.
  destruct (http_get (sent w) _) as [r1|]; [|done].
  simpl in Hf. by rewrite bind_raise_for_status, Hf.
Qed.

(** The search, when it succeeds, up to the choice of the first result. *)
Lemma search_body_first_result title year media_type w r1 results :
  http_get (sent w) (search_request title year media_type) = Some r1 ->
  error_status r1 = false ->
  py_get (json_body r1) "results" (JArr []) = Ok results ->
  search_body title year media_type w
  = (if negb (truthy results) then mret None
     else
       result ← lift (py_first results);
       id ← lift (py_getitem result "id");
       details_response ← requests_get (details_request media_type id);
       raise_for_status details_response;;
       poster_path ← lift (py_get (json_body details_response) "poster_path" JNull);
       local_poster_path ←
         (if truthy poster_path then download_poster id poster_path
          else mret JNull);
       metadata ← lift (build_record title year media_type
                          (json_body details_response) local_poster_path);
       mret (Some metadata))
      (World (fs w) (sent w ++ [search_request title year media_type])).
Proof.
  intros H1 S1 Hres. unfold search_body.
  by rewrite bind_requests_get, H1, bind_raise_for_status, S1, Hres, bind_lift_Ok.
Qed.

(** X5: the search succeeds and finds nothing: one request, no record. *)
Theorem search_without_results title year media_type w r1 results :
  http_get (sent w) (search_request title year media_type) = Some r1 ->
  error_status r1 = false ->
  py_get (json_body r1) "results" (JArr []) = Ok results ->
  truthy results = false ->
  _search_tmdb title year media_type w
  = (Ok None, World (fs w) (sent w ++ [search_request title year media_type])).
Proof.
  intros H1 S1 Hres Tres. unfold _search_tmdb, try_except.
  rewrite (search_body_first_result _ _ _ _ r1 results) by done.
  by rewrite Tres.
Qed.

(** X6: a failure of the search request, or of the detail request after a search
    that found something, gives absent: nothing is raised, nothing is
    written, and no further request is sent. *)
Theorem request_failure_returns_absent title year media_type w :
  let q1 := search_request title year media_type in
  (request_fails (http_get (sent w) q1) ->
   _search_tmdb title year media_type w
   = (Ok None, World (fs w) (sent w ++ [q1])))
  /\ (forall r1 results result id,
        http_get (sent w) q1 = Some r1 -> error_status r1 = false ->
        py_get (json_body r1) "results" (JArr []) = Ok results ->
        truthy results = true ->
        py_first results = Ok result -> py_getitem result "id" = Ok id ->
        request_fails (http_get (sent w ++ [q1]) (details_request media_type id)) ->
        _search_tmdb title year media_type w
        = (Ok None,
           World (fs w) ((sent w ++ [q1]) ++ [details_request media_type id]))).
Proof.
  intros q1. split; [apply search_fails_run|].
  intros r1 results result id H1 S1 Hres Tres Hfirst Hid Hf.
  unfold _search_tmdb, try_except.
  rewrite (search_body_first_result _ _ _ _ r1 results) by done.
  rewrite Tres. cbn [negb].
  rewrite Hfirst, bind_lift_Ok, Hid, bind_lift_Ok, bind_requests_get.
  cbn [sent]. fold q1.
  destruct (http_get (sent w ++ [q1]) _) as [r2|]; [|done].
  simpl in Hf. by rewrite bind_raise_for_status, Hf.
Qed.

(** The poster download, step by step. *)
Lemma download_poster_run id poster_path w :
  download_poster id poster_path w
  = let w1 := World (fs w) (sent w ++ [poster_request poster_path]) in
    match http_get (sent w) (poster_request poster_path) with
    | None => (Raise RequestException, w1)
    | Some r =>
        if error_status r then (Raise RequestException, w1)
        else (Ok (JStr (path_str (poster_file id))),
              with_fs (insert (poster_file id) (raw r)) w1)
    end.
Proof.
  unfold download_poster. rewrite bind_requests_get.
  destruct (http_get (sent w) _) as [r|]; [|done].
  rewrite bind_raise_for_status. by destruct (error_status r).
Qed.

(** What a run of the resolver does to the world, whatever its outcome: the
    files are as before, or one poster file was written; the search request
    was sent, and at most two more. *)
Lemma search_body_world title year media_type w :
  let w' := (search_body title year media_type w).2 in
  (fs w' = fs w
   \/ exists id content, fs w' = <[poster_file id := content]> (fs w))
  /\ exists l, sent w' = sent w ++ search_request title year media_type :: l
               /\ (length l <= 2)%nat.
Proof.
  cbn zeta.
  set (q1 := search_request title year media_type).
  set (P := fun w' : world =>
    (fs w' = fs w
     \/ exists id content, fs w' = <[poster_file id := content]> (fs w))
    /\ exists l, sent w' = sent w ++ q1 :: l /\ (length l <= 2)%nat).
  change (P (search_body title year media_type w).2).
  assert (P1 : forall f, f = fs w -> P (World f (sent w ++ [q1]))).
  { intros f ->. split; [by left|]. exists []. split; [done | simpl; lia]. }
  assert (P2 : forall f q2,
             f = fs w
             \/ (exists id content, f = <[poster_file id := content]> (fs w)) ->
             P (World f ((sent w ++ [q1]) ++ [q2]))).
  { intros f q2 Hf. split; [done|]. exists [q2].
    split; [by rewrite <- app_assoc | simpl; lia]. }
  assert (P3 : forall f q2 q3,
             f = fs w
             \/ (exists id content, f = <[poster_file id := content]> (fs w)) ->
             P (World f (((sent w ++ [q1]) ++ [q2]) ++ [q3]))).
  { intros f q2 q3 Hf. split; [done|]. exists [q2; q3].
    split; [by rewrite <- !app_assoc | simpl; lia]. }
  clearbody P.
  unfold search_body. fold q1. rewrite bind_requests_get.
  destruct (http_get (sent w) q1) as [r1|]; [|by apply P1].
  rewrite bind_raise_for_status.
  destruct (error_status r1); [by apply P1|].
  rewrite bind_lift.
  destruct (py_get (json_body r1) "results" (JArr [])) as [results|];
    [|by apply P1].
  destruct (truthy results); cbn [negb]; [|by apply P1].
  rewrite bind_lift. destruct (py_first results) as [result|]; [|by apply P1].
  rewrite bind_lift. destruct (py_getitem result "id") as [id|];
    [|by apply P1].
  rewrite bind_requests_get. cbn [sent fs].
  set (q2 := details_request media_type id).
  destruct (http_get (sent w ++ [q1]) q2) as [r2|]; [|apply P2; by left].
  rewrite bind_raise_for_status.
  destruct (error_status r2); [apply P2; by left|].
  rewrite bind_lift.
  destruct (py_get (json_body r2) "poster_path" JNull) as [pp|];
    [|apply P2; by left].
  unfold mbind at 1, M_bind at 1.
  destruct (truthy pp).
  - rewrite download_poster_run. cbn zeta. cbn [sent fs].
    destruct (http_get _ (poster_request pp)) as [r3|]; [|apply P3; by left].
    destruct (error_status r3); [apply P3; by left|].
    rewrite bind_lift.
    destruct (build_record _ _ _ _ _); cbn; apply P3; right; eauto.
  - unfold mret at 1, M_ret at 1. rewrite bind_lift.
    destruct (build_record _ _ _ _ _); cbn; apply P2; by left.
Qed.

Lemma search_tmdb_world title year media_type w :
  (_search_tmdb title year media_type w).2
  = (search_body title year media_type w).2.
Proof.
  unfold _search_tmdb, try_except.
  destruct (search_body title year media_type w) as [[r|e] w']; [done|].
  by destruct e.
Qed.

(** A poster file is below the poster directory. *)
Lemma poster_file_prefix id : posters_dir `prefix_of` poster_file id.
Proof. unfold poster_file. by eexists. Qed.




(** The fields of a record, beyond those of [build_record_inv]. *)
Lemma build_record_year title year media_type detailed_info lp md :
  build_record title year media_type detailed_info lp = Ok md ->
  exists ys,
    year_str_of year media_type detailed_info = Ok ys
    /\ py_getitem md "year" = Ok (JStr ys).
Proof.
  unfold build_record. intros H.
  repeat match type of H with
         | (mbind _ ?m) = Ok _ =>
             let x := fresh "x" in
             let E := fresh "E" in
             destruct m as [x|] eqn:E; [|discriminate H];
             cbn [mbind result_bind Py.bind] in H
         end.
  injection H as <-. eauto.
Qed.

Lemma year_of_date_length detailed_info field s :
  year_of_date detailed_info field = Ok s ->
  s = EmptyString \/ String.length s = 4%nat.
Proof.
  unfold year_of_date.
  destruct (py_get detailed_info field (JStr "")) as [date|]; [|done].
  cbn [mbind result_bind Py.bind].
  destruct (split_dash_first date) as [part|]; [|done].
  cbn [mbind result_bind Py.bind].
  destruct (Nat.eqb_spec (String.length part) 4); intros [= <-]; auto.
Qed.

(** X9: the year of a record: the year of the query, when it has one other than
    0; otherwise the part of the release date (or first air date) before its
    first hyphen when that part has four characters, and the empty string in
    every other case. *)
Theorem record_year title year media_type detailed_info lp md :
  build_record title year media_type detailed_info lp = Ok md ->
  exists s,
    py_getitem md "year" = Ok (JStr s)
    /\ if year_truthy year then s = str_of_int (default 0 year)
       else s = EmptyString \/ String.length s = 4%nat.
Proof.
  intros H. apply build_record_year in H as (ys & Hy & Hmd).
  exists ys. split; [done|]. unfold year_str_of in Hy.
  destruct (year_truthy year); [by injection Hy as <-|].
  destruct media_type.
  - destruct (py_get detailed_info "release_date" JNull) as [d|]; [|done].
    cbn [mbind result_bind Py.bind] in Hy.
    destruct (truthy d); [by eapply year_of_date_length|].
    injection Hy as <-. by left.
  - destruct (py_get detailed_info "first_air_date" JNull) as [d|]; [|done].
    cbn [mbind result_bind Py.bind] in Hy.
    destruct (truthy d); [by eapply year_of_date_length|].
    injection Hy as <-. by left.
Qed.

Lemma omap_entry_of_shape (l : list json) :
  (length (omap entry_of l) <= length l)%nat
  /\ Forall (fun e => exists n c, e = JObj [("name", n); ("character", c)])
       (omap entry_of l).
Proof.
  induction l as [|a l [IHl IHf]]; [by split|].
  cbn [omap list_omap length].
  destruct (entry_of a) as [e|] eqn:E.
  - cbn [length]. split; [lia|]. constructor; [|done].
    unfold entry_of in E. destruct a as [| | | | | |kv]; try done.
    destruct (assoc "name" kv), (assoc "character" kv); try done.
    injection E as <-. eauto.
  - split; [lia | done].
Qed.

(** X10: the cast of a record has at most five entries, and each is a pair of a
    name and a character, whatever the detail response holds. *)
Theorem record_cast_shape title year media_type detailed_info lp md :
  build_record title year media_type detailed_info lp = Ok md ->
  exists cl,
    py_getitem md "cast" = Ok (JArr cl)
    /\ (length cl <= 5)%nat
    /\ Forall (fun e => exists n c, e = JObj [("name", n); ("character", c)])
         cl.
Proof.
  intros H. apply build_record_inv in H as (cl & ds & Hcl & _ & Hmd & _).
  exists cl. split; [done|].
  unfold cast_of in Hcl.
  destruct (py_get detailed_info "credits" (JObj [])) as [credits|]; [|done].
  cbn [mbind result_bind Py.bind] in Hcl.
  destruct (py_get credits "cast" (JArr [])) as [cast|]; [|done].
  cbn [mbind result_bind Py.bind] in Hcl.
  assert (Hlen : forall actors,
             (length actors <= 5)%nat -> cast_loop actors = Ok cl ->
             (length cl <= 5)%nat
             /\ Forall (fun e => exists n c,
                          e = JObj [("name", n); ("character", c)]) cl).
  { intros actors Ha Hloop. apply cast_loop_Ok in Hloop as ->.
    destruct (omap_entry_of_shape actors). split; [lia | done]. }
  destruct cast as [| | | |s|l|]; try done;
    cbn [py_slice_to py_iter mbind result_bind Py.bind] in Hcl.
  - apply Hlen in Hcl; [done|].
    unfold chars. rewrite length_map, list_ascii_of_string_of_list_ascii.
    rewrite length_take. lia.
  - apply Hlen in Hcl; [done|]. rewrite length_take. lia.
Qed.

End ResolverMore.

(** ** [_apply_metadata_to_file]: every way the call can go *)

Section EmbedderMore.
Context {env : Env}.

(** The body of the call, case by case. *)
Lemma apply_body_cases file_path metadata w :
  apply_body file_path metadata w
  = match ffmpeg_command file_path metadata (fs w) with
    | Raise e => (Raise e, w)
    | Ok cmd =>
        match run_ffmpeg cmd (fs w) with
        | LaunchError => (Raise OSError, w)
        | Exited code err output =>
            let w1 := after_tool file_path output w in
            if negb (code =? 0) then (Ok false, w1)
            else
              match fs w1 !! temp_output file_path with
              | None => (Raise OSError, w1)
              | Some content =>
                  if replace_refused (temp_output file_path) file_path
                  then (Raise OSError, w1)
                  else (Ok true,
                        with_fs (fun f => <[file_path := content]>
                                            (delete (temp_output file_path) f))
                                w1)
              end
        end
    end.
Proof.
  unfold apply_body. unfold mbind at 1, M_bind at 1, get_fs.
  rewrite bind_lift.
  destruct (ffmpeg_command file_path metadata (fs w)) as [cmd|e]; [|done].
  unfold mbind at 1, M_bind at 1, subprocess_run.
  destruct (run_ffmpeg cmd (fs w)) as [|code err output]; [done|].
  fold (after_tool file_path output w). cbn [fst]. cbn zeta.
  destruct (negb (code =? 0)); [done|].
  unfold mbind, M_bind, os_replace.
  destruct (fs (after_tool file_path output w) !! temp_output file_path);
    [|done].
  by destruct (replace_refused _ _).
Qed.

Lemma after_tool_other file_path output w p :
  p <> temp_output file_path ->
  fs (after_tool file_path output w) !! p = fs w !! p.
Proof.
  intros Hp. destruct output as [c|]; [|done]. simpl.
  by apply lookup_insert_ne.
Qed.

Lemma after_tool_sent file_path output w :
  sent (after_tool file_path output w) = sent w.
Proof. by destruct output. Qed.

(** The call touches two paths at most: the file and the temporary output.
    It sends nothing. *)
Lemma apply_body_frame file_path metadata w :
  let w' := (apply_body file_path metadata w).2 in
  sent w' = sent w
  /\ forall p, p <> file_path -> p <> temp_output file_path ->
               fs w' !! p = fs w !! p.
Proof.
  cbn zeta. rewrite apply_body_cases.
  destruct (ffmpeg_command file_path metadata (fs w)) as [cmd|e]; [|done].
  destruct (run_ffmpeg cmd (fs w)) as [|code err output]; [done|].
  cbn zeta.
  pose proof (after_tool_sent file_path output w) as Hs.
  pose proof (after_tool_other file_path output w) as Hf.
  destruct (negb (code =? 0)); [by split; auto|].
  destruct (fs (after_tool file_path output w) !! temp_output file_path);
    [|by split; auto].
  destruct (replace_refused _ _); [by split; auto|].
  cbn. split; [done|]. intros p H1 H2.
  rewrite lookup_insert_ne, lookup_delete_ne by done. auto.
Qed.

Lemma apply_metadata_world file_path metadata w :
  (_apply_metadata_to_file file_path metadata w).2
  = (apply_body file_path metadata w).2.
Proof.
  unfold _apply_metadata_to_file, try_except.
  by destruct (apply_body file_path metadata w) as [[b|e] w'].
Qed.

(** X14: embedding into one file leaves every other file as it was, except the
    temporary output; the other media files, the posters and the index are
    untouched. *)
Theorem apply_metadata_frame file_path metadata w p :
  p <> file_path -> p <> temp_output file_path ->
  fs (_apply_metadata_to_file file_path metadata w).2 !! p = fs w !! p.
Proof.
  intros H1 H2. rewrite apply_metadata_world.
  by apply apply_body_frame.
Qed.

(** X12: when the tool exits with status 0 and has written its output, and the
    operating system lets the output replace the file, the call reports
    success, the file holds the output and the temporary path is free
    again. *)
Theorem zero_exit_replaces_original file_path metadata w cmd err content :
  ffmpeg_command file_path metadata (fs w) = Ok cmd ->
  run_ffmpeg cmd (fs w) = Exited 0 err (Some content) ->
  replace_refused (temp_output file_path) file_path = false ->
  exists w',
    _apply_metadata_to_file file_path metadata w = (Ok true, w')
    /\ fs w' !! file_path = Some content
    /\ fs w' !! temp_output file_path = None.
Proof.
  intros Hcmd Hrun Hrep. eexists.
  unfold _apply_metadata_to_file, try_except.
  rewrite apply_body_cases, Hcmd, Hrun. cbn zeta. cbn [negb Z.eqb].
  unfold after_tool at 1. cbn [fs with_fs]. rewrite lookup_insert_eq, Hrep.
  split; [done|]. cbn [fs with_fs after_tool]. split.
  - apply lookup_insert_eq.
  - rewrite lookup_insert_ne by (symmetry; apply temp_output_ne).
    apply lookup_delete_eq.
Qed.

(** X13: a call that reports success has replaced the file by the temporary
    output, which is no longer at the temporary path. *)
Theorem success_means_replaced file_path metadata w w' :
  _apply_metadata_to_file file_path metadata w = (Ok true, w') ->
  exists cmd err output content,
    ffmpeg_command file_path metadata (fs w) = Ok cmd
    /\ run_ffmpeg cmd (fs w) = Exited 0 err output
    /\ fs (after_tool file_path output w) !! temp_output file_path
       = Some content
    /\ fs w' !! file_path = Some content
    /\ fs w' !! temp_output file_path = None.
Proof.
  unfold _apply_metadata_to_file, try_except.
  rewrite apply_body_cases.
  destruct (ffmpeg_command file_path metadata (fs w)) as [cmd|e] eqn:Hcmd;
    [|no_record].
  destruct (run_ffmpeg cmd (fs w)) as [|code err output] eqn:Hrun;
    [no_record|].
  cbn zeta. destruct (Z.eqb_spec code 0) as [->|?]; cbn [negb];
    [|no_record].
  destruct (fs (after_tool file_path output w) !! temp_output file_path)
    as [content|] eqn:Ht; [|no_record].
  destruct (replace_refused _ _); [no_record|].
  intros [= <-]. exists cmd, err, output, content.
  repeat split; try done; cbn [fs with_fs].
  - apply lookup_insert_eq.
  - rewrite lookup_insert_ne by (symmetry; apply temp_output_ne).
    apply lookup_delete_eq.
Qed.

(** X15: when the operating system refuses the replacement (the scratch directory
    is on another file system, say), a run of the tool that exited with
    status 0 still ends in failure: the file is as before and the output
    stays at the temporary path. *)
Theorem refused_replace_fails file_path metadata w cmd err content :
  ffmpeg_command file_path metadata (fs w) = Ok cmd ->
  run_ffmpeg cmd (fs w) = Exited 0 err (Some content) ->
  replace_refused (temp_output file_path) file_path = true ->
  exists w',
    _apply_metadata_to_file file_path metadata w = (Ok false, w')
    /\ fs w' !! file_path = fs w !! file_path
    /\ fs w' !! temp_output file_path = Some content.
Proof.
  intros Hcmd Hrun Hrep. eexists.
  unfold _apply_metadata_to_file, try_except.
  rewrite apply_body_cases, Hcmd, Hrun. cbn zeta. cbn [negb Z.eqb].
  unfold after_tool at 1. cbn [fs with_fs]. rewrite lookup_insert_eq, Hrep.
  split; [done|]. split.
  - apply after_tool_original.
  - cbn. apply lookup_insert_eq.
Qed.

Lemma strs_app (l1 l2 : list json) r :
  strs (l1 ++ l2) = Ok r ->
  exists r1 r2, strs l1 = Ok r1 /\ strs l2 = Ok r2 /\ r = r1 ++ r2.
Proof.
  revert r. induction l1 as [|x l1 IH]; intros r; cbn [app strs].
  - intros H. by exists [], r.
  - destruct x as [| | | |s| |]; try done.
    destruct (strs (l1 ++ l2)) as [r'|] eqn:E; [|done].
    intros [= <-]. destruct (IH r' eq_refl) as (r1 & r2 & -> & H2 & ->).
    by exists (s :: r1), r2.
Qed.

Lemma strs_map_JStr (l : list string) : strs (map JStr l) = Ok l.
Proof. induction l as [|x l IH]; [done|]. cbn. by rewrite IH. Qed.

(** X16: the command that is run reads the file, writes the temporary output and
    copies the streams: it starts with the tool, [-i] and the file, ends with
    the temporary path, and has [-c copy] in between. *)
Theorem ffmpeg_command_shape file_path metadata files cmd :
  ffmpeg_command file_path metadata files = Ok cmd ->
  exists before after,
    cmd = [ffmpeg_path; "-i"; path_str file_path]
          ++ (before ++ "-c" :: "copy" :: after)
          ++ [path_str (temp_output file_path)].
Proof.
  unfold ffmpeg_command. intros H.
  repeat match type of H with
         | (mbind _ ?m) = Ok _ =>
             let x := fresh "x" in
             let E := fresh "E" in
             destruct m as [x|] eqn:E; [|discriminate H];
             cbn [mbind result_bind Py.bind] in H
         end.
  apply strs_app in H as (r1 & ra & H1 & H & ->).
  apply strs_app in H as (r2 & rb & H2 & H & ->).
  apply strs_app in H as (r3 & r4 & H3 & H4 & ->).
  cbn in H1. injection H1 as <-. cbn in H4. injection H4 as <-.
  match type of H2 with
  | strs (if ?b then _ else _) = _ => destruct b
  end.
  - match type of H2 with
    | strs (_ :: ?v :: _) = _ =>
        destruct v as [| | | |poster| |]; try discriminate H2
    end.
    cbn in H2. injection H2 as <-.
    by exists ["-i"; poster; "-map"; "0"; "-map"; "1"],
              ("-disposition:v:1" :: "attached_pic" :: r3).
  - cbn in H2. injection H2 as <-. by exists [], r3.
Qed.

End EmbedderMore.

Section EmbedderRuns.

Lemma apply_metadata_frame_witness :
  fs (_apply_metadata_to_file (env := Sample.failing_tool_env)
        Sample.matrix_file Sample.matrix_record Sample.after_first_run).2
     !! Sample.index_file
  = fs Sample.after_first_run !! Sample.index_file.
Proof.
  apply (apply_metadata_frame (env := Sample.failing_tool_env)); discriminate.
Defined.

Lemma zero_exit_replaces_original_witness :
  exists w',
    _apply_metadata_to_file (env := Sample.offline_env)
      Sample.matrix_file Sample.matrix_record Sample.one_movie = (Ok true, w')
    /\ fs w' !! Sample.matrix_file = Some "remuxed"
    /\ fs w' !! temp_output (env := Sample.offline_env) Sample.matrix_file
       = None.
Proof.
  eapply (zero_exit_replaces_original (env := Sample.offline_env)
            Sample.matrix_file Sample.matrix_record Sample.one_movie _
            EmptyString "remuxed"); reflexivity.
Defined.

Lemma success_means_replaced_witness :
  exists cmd err output content,
    ffmpeg_command (env := Sample.offline_env)
      Sample.matrix_file Sample.matrix_record (fs Sample.one_movie) = Ok cmd
    /\ run_ffmpeg (Env := Sample.offline_env) cmd (fs Sample.one_movie)
       = Exited 0 err output
    /\ fs (after_tool (env := Sample.offline_env)
             Sample.matrix_file output Sample.one_movie)
         !! temp_output (env := Sample.offline_env) Sample.matrix_file
       = Some content
    /\ fs (_apply_metadata_to_file (env := Sample.offline_env)
             Sample.matrix_file Sample.matrix_record Sample.one_movie).2
         !! Sample.matrix_file = Some content
    /\ fs (_apply_metadata_to_file (env := Sample.offline_env)
             Sample.matrix_file Sample.matrix_record Sample.one_movie).2
         !! temp_output (env := Sample.offline_env) Sample.matrix_file = None.
Proof.
  apply (success_means_replaced (env := Sample.offline_env)
           Sample.matrix_file Sample.matrix_record Sample.one_movie).
  vm_compute. reflexivity.
Defined.

(** A record that is no dict (a list read from a damaged index, say) makes
    the call fail before the tool is run: nothing changes. *)
Lemma apply_failure_keeps_original_witness :
  fs (_apply_metadata_to_file (env := Sample.offline_env)
        Sample.matrix_file (JArr [JInt 1]) Sample.one_movie).2
     !! Sample.matrix_file
  = fs Sample.one_movie !! Sample.matrix_file.
Proof.
  apply (apply_failure_keeps_original (env := Sample.offline_env)
           Sample.matrix_file (JArr [JInt 1]) Sample.one_movie).
  vm_compute. reflexivity.
Defined.

Lemma refused_replace_fails_witness :
  let E := Build_Env ["media"] "key" "/usr/bin/ffmpeg" Sample.str_scalar
             Sample.offline Sample.remux_ok Sample.load Sample.dump
             Sample.walk ["tmp"] (fun _ => false) (fun _ _ => true) in
  exists w',
    _apply_metadata_to_file (env := E)
      Sample.matrix_file Sample.matrix_record Sample.one_movie = (Ok false, w')
    /\ fs w' !! Sample.matrix_file = fs Sample.one_movie !! Sample.matrix_file
    /\ fs w' !! temp_output (env := E) Sample.matrix_file = Some "remuxed".
Proof.
  intros E.
  eapply (refused_replace_fails (env := E)
            Sample.matrix_file Sample.matrix_record Sample.one_movie _
            EmptyString "remuxed"); reflexivity.
Defined.

Lemma ffmpeg_command_shape_witness :
  exists cmd before after,
    ffmpeg_command (env := Sample.offline_env)
      Sample.matrix_file Sample.matrix_record (fs Sample.one_movie) = Ok cmd
    /\ cmd = ["/usr/bin/ffmpeg"; "-i"; "media/The.Matrix.1999.1080p.mkv"]
             ++ (before ++ "-c" :: "copy" :: after)
             ++ ["tmp/temp_The.Matrix.1999.1080p.mkv"].
Proof.
  destruct (ffmpeg_command_shape (env := Sample.offline_env)
              Sample.matrix_file Sample.matrix_record (fs Sample.one_movie)
              _ eq_refl) as (before & after & H).
  eexists _, before, after. split; [reflexivity | exact H].
Defined.

End EmbedderRuns.

(** ** The cache as a dict *)

Section DictFacts.

Lemma assoc_set_eq k v kv : assoc k (assoc_set k v kv) = Some v.
Proof.
  induction kv as [|[k' v'] kv IH]; cbn [assoc_set assoc].
  - by rewrite String.eqb_refl.
  - destruct (String.eqb_spec k k') as [->|Hne]; cbn [assoc].
    + by rewrite String.eqb_refl.
    + destruct (String.eqb_spec k k'); [done | exact IH].
Qed.

Lemma assoc_set_ne k k' v kv :
  k <> k' -> assoc k (assoc_set k' v kv) = assoc k kv.
Proof.
  intros Hne. induction kv as [|[k0 v0] kv IH]; cbn [assoc_set assoc].
  - by destruct (String.eqb_spec k k').
  - destruct (String.eqb_spec k' k0) as [->|H0]; cbn [assoc].
    + by destruct (String.eqb_spec k k0).
    + destruct (String.eqb_spec k k0); [done | exact IH].
Qed.

End DictFacts.

(** ** [_save_metadata], [_load_metadata] and [scan_directory] together *)

Section OrchestratorMore.
Context {env : Env}.

(** X17: what is flushed is what is loaded next, when the JSON codec gives the
    cache back from its own output; the flush touches no other file. *)
Theorem save_then_load cache w :
  json_load (json_dump cache) = Ok cache ->
  exists w1,
    _save_metadata cache w = (Ok tt, w1)
    /\ _load_metadata w1 = (Ok cache, w1)
    /\ forall p, p <> metadata_file -> fs w1 !! p = fs w !! p.
Proof.
  intros Hloop. eexists. split; [reflexivity|]. split.
  - apply load_metadata_decoded with (content := json_dump cache); [|done].
    apply lookup_insert_eq.
  - intros p Hp. cbn. by apply lookup_insert_ne.
Qed.

(** One turn of the loop and the cache: it comes back as it was, or with the
    record of the file added under a key that held no record. *)
Lemma process_file_cache rel kv w c' w' :
  process_file rel (JObj kv) w = (Ok c', w') ->
  c' = JObj kv
  \/ exists md,
       truthy (default JNull (assoc (path_str rel) kv)) = false
       /\ c' = JObj (assoc_set (path_str rel) md kv).
Proof.
  unfold process_file. cbn [py_get]. rewrite bind_lift_Ok. cbn beta.
  destruct (truthy (default JNull (assoc (path_str rel) kv))) eqn:Ht;
    cbn [negb].
  - unfold mbind at 1, M_bind at 1, mret at 1, M_ret at 1. cbn [fst snd].
    rewrite Ht. unfold mbind, M_bind.
    destruct (_apply_metadata_to_file _ _ w) as [[b|e] w1]; [|done].
    intros [= <- _]. by left.
  - destruct (_parse_filename _) as [[t y] m].
    unfold mbind at 1, M_bind at 1. unfold mbind at 1, M_bind at 1.
    destruct (_search_tmdb t y m w) as [[[md|]|e] w1]; [| |done].
    + destruct (truthy md) eqn:Hmd.
      * cbn [py_setitem]. rewrite bind_lift_Ok.
        unfold mret at 1, M_ret at 1. cbn [fst snd]. rewrite Hmd.
        unfold mbind, M_bind.
        destruct (_apply_metadata_to_file _ _ w1) as [[b|e] w2]; [|done].
        intros [= <- _]. right. eauto.
      * unfold mret at 1, M_ret at 1. cbn [fst snd]. rewrite Ht.
        intros [= <- _]. by left.
    + unfold mret at 1, M_ret at 1. cbn [fst snd]. rewrite Ht.
      intros [= <- _]. by left.
Qed.

Lemma process_file_keeps rel kv w c' w' :
  process_file rel (JObj kv) w = (Ok c', w') ->
  exists kv',
    c' = JObj kv'
    /\ (forall k v, assoc k kv = Some v -> truthy v = true ->
                    assoc k kv' = Some v)
    /\ (forall k, is_Some (assoc k kv) -> is_Some (assoc k kv')).
Proof.
  intros H. apply process_file_cache in H as [->|(md & Hf & ->)].
  - by exists kv.
  - eexists. split; [done|]. split.
    + intros k v Hk Hv. destruct (decide (k = path_str rel)) as [->|Hne].
      * rewrite Hk in Hf. cbn in Hf. congruence.
      * by rewrite assoc_set_ne.
    + intros k Hk. destruct (decide (k = path_str rel)) as [->|Hne].
      * rewrite assoc_set_eq. eauto.
      * by rewrite assoc_set_ne.
Qed.

Lemma scan_loop_keeps files kv w c' w' :
  scan_loop files (JObj kv) w = (Ok c', w') ->
  exists kv',
    c' = JObj kv'
    /\ (forall k v, assoc k kv = Some v -> truthy v = true ->
                    assoc k kv' = Some v)
    /\ (forall k, is_Some (assoc k kv) -> is_Some (assoc k kv')).
Proof.
  revert kv w. induction files as [|rel files IH]; intros kv w.
  - cbn. intros [= <- _]. by exists kv.
  - cbn [scan_loop]. unfold mbind, M_bind.
    destruct (process_file rel (JObj kv) w) as [[c1|e] w1] eqn:H1; [|done].
    apply process_file_keeps in H1 as (kv1 & -> & Hv1 & Hk1).
    intros H2. apply IH in H2 as (kv2 & -> & Hv2 & Hk2).
    exists kv2. split; [done|]. split; eauto.
Qed.

(** X18: a scan that returns has flushed the cache it returns, and that cache
    extends the one it started from: no key is dropped and no entry that held
    a record is changed. *)
Theorem scan_extends_cache kv w c' w' :
  scan_directory (JObj kv) w = (Ok c', w') ->
  exists kv',
    c' = JObj kv'
    /\ (forall k v, assoc k kv = Some v -> truthy v = true ->
                    assoc k kv' = Some v)
    /\ (forall k, is_Some (assoc k kv) -> is_Some (assoc k kv'))
    /\ fs w' !! metadata_file = Some (json_dump c').
Proof.
  unfold scan_directory. unfold mbind at 1, M_bind at 1, get_fs.
  unfold mbind at 1, M_bind at 1.
  destruct (scan_loop (media_files (fs w)) (JObj kv) w) as [[c1|e] w1] eqn:H1;
    [|done].
  cbn. intros [= <- <-].
  apply scan_loop_keeps in H1 as (kv' & -> & Hv & Hk).
  exists kv'. repeat split; try done. cbn. apply lookup_insert_eq.
Qed.

(** *** What a scan leaves alone *)

Lemma search_tmdb_outside_posters title year media_type w p :
  ~ posters_dir `prefix_of` p ->
  fs (_search_tmdb title year media_type w).2 !! p = fs w !! p.
Proof.
  intros Hp. rewrite search_tmdb_world.
  destruct (search_body_world title year media_type w)
    as [[Hfs|(id & content & Hfs)] _]; rewrite Hfs; [done|].
  apply lookup_insert_ne. intros <-. apply Hp, poster_file_prefix.
Qed.

Lemma apply_metadata_outside file_path metadata w p :
  p <> file_path -> p <> temp_output file_path ->
  fs (_apply_metadata_to_file file_path metadata w).2 !! p = fs w !! p.
Proof.
  intros H1 H2. rewrite apply_metadata_world. by apply apply_body_frame.
Qed.

(** One turn of the loop changes the file, the temporary output and the
    posters, and nothing else. *)
Lemma process_file_frame rel cache w p :
  p <> directory ++ rel -> p <> temp_output (directory ++ rel) ->
  ~ posters_dir `prefix_of` p ->
  fs (process_file rel cache w).2 !! p = fs w !! p.
Proof.
  intros H1 H2 H3. unfold process_file. rewrite bind_lift.
  destruct (py_get cache (path_str rel) JNull) as [existing|]; [|done].
  destruct (truthy existing) eqn:Ht; cbn [negb].
  - unfold mbind at 1, M_bind at 1, mret at 1, M_ret at 1. cbn [fst snd].
    rewrite Ht. unfold mbind, M_bind.
    pose proof (apply_metadata_outside (directory ++ rel) existing w p H1 H2)
      as Ha.
    by destruct (_apply_metadata_to_file _ _ w) as [[b|e] w1].
  - destruct (_parse_filename _) as [[t y] m].
    unfold mbind at 1, M_bind at 1. unfold mbind at 1, M_bind at 1.
    pose proof (search_tmdb_outside_posters t y m w p H3) as Hs.
    destruct (_search_tmdb t y m w) as [[[md|]|e] w1]; cbn [snd] in Hs;
      [| |done].
    + destruct (truthy md) eqn:Hmd.
      * rewrite bind_lift.
        destruct (py_setitem cache (path_str rel) md) as [cache'|]; [|done].
        unfold mret at 1, M_ret at 1. cbn [fst snd]. rewrite Hmd.
        unfold mbind, M_bind.
        pose proof (apply_metadata_outside (directory ++ rel) md w1 p H1 H2)
          as Ha.
        destruct (_apply_metadata_to_file _ _ w1) as [[b|e] w2];
          unfold mret, M_ret; cbn [snd] in *;
          (etrans; [exact Ha | exact Hs]).
      * unfold mret at 1, M_ret at 1. cbn [fst snd]. by rewrite Ht.
    + unfold mret at 1, M_ret at 1. cbn [fst snd]. by rewrite Ht.
Qed.

Lemma scan_loop_frame files cache w p :
  (forall rel, In rel files ->
               p <> directory ++ rel /\ p <> temp_output (directory ++ rel)) ->
  ~ posters_dir `prefix_of` p ->
  fs (scan_loop files cache w).2 !! p = fs w !! p.
Proof.
  revert cache w. induction files as [|rel files IH]; intros cache w Hall Hp.
  - done.
  - cbn [scan_loop]. unfold mbind, M_bind.
    destruct (Hall rel (or_introl eq_refl)) as [H1 H2].
    pose proof (process_file_frame rel cache w p H1 H2 Hp) as Hf.
    destruct (process_file rel cache w) as [[c1|e] w1]; cbn [snd] in Hf;
      [|done].
    rewrite IH; [done | | done]. intros r Hr. apply Hall. by right.
Qed.

(** The index is none of the paths a scan writes before its flush. *)
Lemma index_is_no_media_file rel :
  is_video rel = true -> metadata_file <> directory ++ rel.
Proof.
  unfold metadata_file, metadata_dir. rewrite <- app_assoc.
  intros Hv Heq. apply app_inv_head in Heq. subst rel.
  revert Hv. unfold is_video, path_suffix, path_name.
  replace (directory ++ [".metadata"; "metadata.json"])
    with ((directory ++ [".metadata"]) ++ ["metadata.json"])
    by (by rewrite <- app_assoc).
  rewrite last_snoc. vm_compute. discriminate.
Qed.

Lemma index_is_no_temp_output file_path :
  metadata_file <> temp_output file_path.
Proof.
  unfold metadata_file, temp_output. intros Heq.
  apply (f_equal last) in Heq. rewrite !last_snoc in Heq.
  injection Heq as Heq.
  change ("temp_" +:+ path_name file_path)
    with (String "t" ("emp_" +:+ path_name file_path)) in Heq.
  discriminate Heq.
Qed.

Lemma index_is_no_poster : ~ posters_dir `prefix_of` metadata_file.
Proof.
  unfold posters_dir, metadata_file. intros [k Hk].
  rewrite <- app_assoc in Hk. apply app_inv_head in Hk. discriminate Hk.
Qed.

Lemma scan_loop_index cache w :
  fs (scan_loop (media_files (fs w)) cache w).2 !! metadata_file
  = fs w !! metadata_file.
Proof.
  apply scan_loop_frame; [|apply index_is_no_poster].
  intros rel Hrel. unfold media_files in Hrel.
  apply filter_In in Hrel as [_ Hv]. split.
  - by apply index_is_no_media_file.
  - apply index_is_no_temp_output.
Qed.

(** X19: a scan that is stopped by an exception has not flushed: the index file
    is what it was before the scan, and the records resolved so far are in
    memory only. *)
Theorem aborted_scan_keeps_index cache w e w' :
  scan_directory cache w = (Raise e, w') ->
  fs w' !! metadata_file = fs w !! metadata_file.
Proof.
  unfold scan_directory. unfold mbind at 1, M_bind at 1, get_fs.
  unfold mbind at 1, M_bind at 1.
  pose proof (scan_loop_index cache w) as Hi.
  destruct (scan_loop (media_files (fs w)) cache w) as [[c1|e1] w1];
    cbn [snd] in Hi.
  - cbn. discriminate.
  - by intros [= _ <-].
Qed.

(** *** A scan with the network down *)

Lemma process_file_offline rel kv w :
  (forall h r, http_get h r = None) ->
  truthy (default JNull (assoc (path_str rel) kv)) = false ->
  exists q,
    process_file rel (JObj kv) w
    = (Ok (JObj kv), World (fs w) (sent w ++ [q])).
Proof.
  intros Hoff Ht. unfold process_file. cbn [py_get].
  rewrite bind_lift_Ok. cbn beta. rewrite Ht. cbn [negb].
  destruct (_parse_filename _) as [[t y] m]. exists (search_request t y m).
  unfold mbind at 1, M_bind at 1. unfold mbind at 1, M_bind at 1.
  rewrite search_fails_run by (by rewrite Hoff).
  unfold mret at 1, M_ret at 1. cbn [fst snd]. by rewrite Ht.
Qed.

Lemma scan_loop_offline files kv w :
  (forall h r, http_get h r = None) ->
  (forall rel, In rel files ->
               truthy (default JNull (assoc (path_str rel) kv)) = false) ->
  exists qs,
    scan_loop files (JObj kv) w = (Ok (JObj kv), World (fs w) (sent w ++ qs))
    /\ length qs = length files.
Proof.
  intros Hoff. revert w. induction files as [|rel files IH]; intros w Hall.
  - exists []. rewrite app_nil_r. by destruct w.
  - destruct (process_file_offline rel kv w Hoff) as [q Hq].
    { apply Hall. by left. }
    destruct (IH (World (fs w) (sent w ++ [q]))) as (qs & Hqs & Hlen).
    { intros r Hr. apply Hall. by right. }
    exists (q :: qs). split; [|simpl; by rewrite Hlen].
    cbn [scan_loop]. unfold mbind, M_bind. rewrite Hq, Hqs. cbn [fs sent].
    by rewrite <- app_assoc.
Qed.

(** X20: with the network down and no record in the cache for any eligible file,
    the scan asks once for each file, embeds nothing, raises nothing, and
    flushes the cache it started with: no file but the index changes. *)
Theorem offline_scan_changes_nothing kv w :
  (forall h r, http_get h r = None) ->
  (forall rel, In rel (media_files (fs w)) ->
               truthy (default JNull (assoc (path_str rel) kv)) = false) ->
  exists w',
    scan_directory (JObj kv) w = (Ok (JObj kv), w')
    /\ fs w' = <[metadata_file := json_dump (JObj kv)]> (fs w)
    /\ length (sent w') = (length (sent w) + length (media_files (fs w)))%nat.
Proof.
  intros Hoff Hall.
  destruct (scan_loop_offline (media_files (fs w)) kv w Hoff Hall)
    as (qs & Hscan & Hlen).
  eexists. split; [|split].
  - unfold scan_directory. unfold mbind at 1, M_bind at 1, get_fs.
    unfold mbind at 1, M_bind at 1. rewrite Hscan. reflexivity.
  - done.
  - cbn. rewrite length_app. lia.
Qed.

(** *** A file that is resolved *)

(** X21: a file without a record whose resolution succeeds: the record is stored
    under the path of the file relative to the root, where a lookup finds it,
    and it is that record that is embedded into the file. *)
Theorem process_file_resolves rel kv w md w1 :
  truthy (default JNull (assoc (path_str rel) kv)) = false ->
  (let '(title, year, media_type) :=
     _parse_filename (path_stem (directory ++ rel)) in
   _search_tmdb title year media_type w) = (Ok (Some md), w1) ->
  exists kv',
    process_file rel (JObj kv) w
    = (Ok (JObj kv'),
       (_apply_metadata_to_file (directory ++ rel) md w1).2)
    /\ py_get (JObj kv') (path_str rel) JNull = Ok md
    /\ forall k, k <> path_str rel -> assoc k kv' = assoc k kv.
Proof.
  intros Ht Hs. exists (assoc_set (path_str rel) md kv). split; [|split].
  - unfold process_file. cbn [py_get]. rewrite bind_lift_Ok. cbn beta.
    rewrite Ht. cbn [negb].
    destruct (_parse_filename _) as [[t y] m].
    unfold mbind at 1, M_bind at 1. unfold mbind at 1, M_bind at 1.
    rewrite Hs.
    assert (Hmd : truthy md = true) by (by eapply search_tmdb_record_truthy).
    rewrite Hmd. cbn [py_setitem]. rewrite bind_lift_Ok.
    unfold mret at 1, M_ret at 1. cbn [fst snd]. rewrite Hmd.
    unfold mbind, M_bind.
    destruct (apply_metadata_total (directory ++ rel) md w1)
      as (b & w2 & Hrun & _).
    by rewrite Hrun.
  - cbn [py_get]. by rewrite assoc_set_eq.
  - intros k Hk. by apply assoc_set_ne.
Qed.

End OrchestratorMore.

(** ** [_find_ffmpeg] *)

Section FindFfmpegFacts.
Context {host : Host}.

Lemma first_file_Some locations l :
  first_file locations = Some l ->
  exists before after,
    locations = before ++ l :: after
    /\ os_path_isfile l = true
    /\ Forall (fun x => os_path_isfile x = false) before.
Proof.
  induction locations as [|x rest IH]; [done|]. cbn [first_file].
  destruct (os_path_isfile x) eqn:Hx.
  - intros [= <-]. by exists [], rest.
  - intros H. destruct (IH H) as (before & after & -> & Hl & Hb).
    exists (x :: before), after. repeat split; [done|]. by constructor.
Qed.

Lemma first_file_None locations :
  first_file locations = None ->
  Forall (fun x => os_path_isfile x = false) locations.
Proof.
  induction locations as [|x rest IH]; [done|]. cbn [first_file].
  destruct (os_path_isfile x) eqn:Hx; [done|]. intros H. by constructor; auto.
Qed.

(** X22: when the lookup command cannot be started, the search ends there: the
    result is absent, whether or not a common location holds the tool. *)
Theorem find_ffmpeg_lookup_cannot_start e :
  run_command [if String.eqb os_name "nt" then "where" else "which"; "ffmpeg"]
  = Raise e ->
  _find_ffmpeg = None.
Proof.
  unfold _find_ffmpeg, find_ffmpeg_body.
  by destruct (String.eqb os_name "nt"); intros ->.
Qed.

(** X23: when the lookup command runs and exits with a status other than 0, the
    result is the first of the common locations, in their order, that is a
    file, and absent when none is. *)
Theorem find_ffmpeg_falls_back code out :
  run_command [if String.eqb os_name "nt" then "where" else "which"; "ffmpeg"]
  = Ok (code, out) ->
  code <> 0 ->
  match _find_ffmpeg with
  | Some l =>
      exists before after,
        common_locations = before ++ l :: after
        /\ os_path_isfile l = true
        /\ Forall (fun x => os_path_isfile x = false) before
  | None => Forall (fun x => os_path_isfile x = false) common_locations
  end.
Proof.
  intros Hrun Hcode.
  assert (H : _find_ffmpeg = first_file common_locations).
  { unfold _find_ffmpeg, find_ffmpeg_body.
    destruct (String.eqb os_name "nt"); rewrite Hrun;
      cbn [mbind result_bind Py.bind fst];
      by destruct (Z.eqb_spec code 0). }
  rewrite H. destruct (first_file common_locations) as [l|] eqn:E.
  - by apply first_file_Some.
  - by apply first_file_None.
Qed.

End FindFfmpegFacts.

(** ** The further properties on the samples *)

Section MoreRuns.
Import Sample MoreSamples.

Lemma find_ffmpeg_lookup_cannot_start_witness :
  os_path_isfile (Host := host_without_which) "/usr/local/bin/ffmpeg" = true
  /\ _find_ffmpeg (host := host_without_which) = None.
Proof.
  split; [reflexivity|].
  apply (find_ffmpeg_lookup_cannot_start (host := host_without_which) OSError).
  reflexivity.
Defined.

Lemma find_ffmpeg_falls_back_witness :
  match _find_ffmpeg (host := host_which_fails) with
  | Some l =>
      exists before after,
        common_locations = before ++ l :: after
        /\ os_path_isfile (Host := host_which_fails) l = true
        /\ Forall (fun x => os_path_isfile (Host := host_which_fails) x = false)
             before
  | None =>
      Forall (fun x => os_path_isfile (Host := host_which_fails) x = false)
        common_locations
  end.
Proof.
  apply (find_ffmpeg_falls_back (host := host_which_fails) 1 EmptyString).
  - reflexivity.
  - discriminate.
Defined.

Example find_ffmpeg_second_location :
  _find_ffmpeg (host := host_which_fails) = Some "/usr/local/bin/ffmpeg".
Proof. reflexivity. Qed.

Lemma search_without_results_witness :
  (_search_tmdb (env := empty_catalog_env)
     "The Matrix" (Some 1999) movie empty_world).1 = Ok None.
Proof.
  rewrite (search_without_results (env := empty_catalog_env)
             "The Matrix" (Some 1999) movie empty_world
             (Response 200 no_results EmptyString) (JArr []));
    reflexivity.
Defined.

Lemma request_failure_returns_absent_witness :
  (_search_tmdb (env := offline_env)
     "The Matrix" (Some 1999) movie empty_world).1 = Ok None
  /\ (_search_tmdb (env := no_details_env)
        "The Matrix" (Some 1999) movie empty_world).1 = Ok None.
Proof.
  split.
  - destruct (request_failure_returns_absent (env := offline_env)
                "The Matrix" (Some 1999) movie empty_world) as [H _].
    rewrite H; [reflexivity | exact I].
  - destruct (request_failure_returns_absent (env := no_details_env)
                "The Matrix" (Some 1999) movie empty_world) as [_ H].
    rewrite (H (Response 200 search_results EmptyString)
               (JArr [JObj [("id", JInt 603)]]) (JObj [("id", JInt 603)])
               (JInt 603)); reflexivity.
Defined.


Lemma record_year_witness :
  exists md s,
    build_record "The Matrix" None movie detail_dated JNull = Ok md
    /\ py_getitem md "year" = Ok (JStr s)
    /\ (s = EmptyString \/ String.length s = 4%nat).
Proof.
  destruct (record_year "The Matrix" None movie detail_dated JNull _ eq_refl)
    as (s & Hs & Hlen).
  eexists _, s. split; [reflexivity|]. by split.
Defined.

Example record_year_from_date :
  exists md,
    build_record "The Matrix" None movie detail_dated JNull = Ok md
    /\ py_getitem md "year" = Ok (JStr "1999").
Proof. eexists. split; reflexivity. Qed.

Lemma record_cast_shape_witness :
  exists md cl,
    build_record "The Matrix" (Some 1999) movie detail_cast JNull = Ok md
    /\ py_getitem md "cast" = Ok (JArr cl)
    /\ (length cl <= 5)%nat
    /\ Forall (fun e => exists n c, e = JObj [("name", n); ("character", c)])
         cl.
Proof.
  destruct (record_cast_shape
              "The Matrix" (Some 1999) movie detail_cast JNull _ eq_refl)
    as (cl & H).
  eexists _, cl. split; [reflexivity | exact H].
Defined.

Lemma save_then_load_witness :
  exists w1,
    _save_metadata (env := offline_env) cache_one one_movie = (Ok tt, w1)
    /\ _load_metadata (env := offline_env) w1 = (Ok cache_one, w1)
    /\ forall p, p <> metadata_file (env := offline_env) ->
                 fs w1 !! p = fs one_movie !! p.
Proof.
  apply (save_then_load (env := offline_env) cache_one one_movie).
  vm_compute. reflexivity.
Defined.

Lemma scan_extends_cache_witness :
  let r := scan_directory (env := catalog_env detail_crew None)
             (JObj [("old.mkv", matrix_record)]) one_movie in
  exists c' kv',
    r.1 = Ok c'
    /\ c' = JObj kv'
    /\ assoc "old.mkv" kv' = Some matrix_record
    /\ is_Some (assoc "The.Matrix.1999.1080p.mkv" kv')
    /\ fs r.2 !! index_file = Some (Sample.dump c').
Proof.
  intros r. destruct r as [[c'|e] w'] eqn:Hr;
    [|exfalso; vm_compute in Hr; discriminate Hr].
  destruct (scan_extends_cache (env := catalog_env detail_crew None)
              [("old.mkv", matrix_record)] one_movie c' w' Hr)
    as (kv' & -> & Hv & Hk & Hf).
  exists (JObj kv'), kv'. repeat split; [by apply Hv | | exact Hf].
  vm_compute in Hr. injection Hr as <- _. vm_compute. eauto.
Defined.

Lemma aborted_scan_keeps_index_witness :
  let r := scan_directory (env := catalog_env detail_no_name None)
             (JObj []) after_first_run in
  r.1 = Raise KeyError
  /\ fs r.2 !! index_file = fs after_first_run !! index_file.
Proof.
  intros r. split; [vm_compute; reflexivity|].
  apply (aborted_scan_keeps_index (env := catalog_env detail_no_name None)
           (JObj []) after_first_run KeyError r.2).
  vm_compute. reflexivity.
Defined.

Lemma offline_scan_changes_nothing_witness :
  exists w',
    scan_directory (env := offline_env) (JObj []) one_movie
    = (Ok (JObj []), w')
    /\ fs w' = <[index_file := Sample.dump (JObj [])]> (fs one_movie)
    /\ length (sent w') = 1%nat.
Proof.
  apply (offline_scan_changes_nothing (env := offline_env) [] one_movie).
  - reflexivity.
  - reflexivity.
Defined.

Lemma process_file_resolves_witness :
  exists kv',
    process_file (env := catalog_env detail_crew None)
      ["The.Matrix.1999.1080p.mkv"] (JObj []) one_movie
    = (Ok (JObj kv'),
       (_apply_metadata_to_file (env := catalog_env detail_crew None)
          matrix_file
          (JObj [("id", JInt 603); ("title", JStr "The Matrix");
                 ("original_title", JStr EmptyString); ("year", JStr "1999");
                 ("overview", JStr EmptyString); ("poster_path", JNull);
                 ("genres", JArr []); ("rating", JInt 0);
                 ("type", JStr "movie");
                 ("directors",
                  JArr [JStr "Lilly Wachowski"; JStr "Lana Wachowski"]);
                 ("cast", JArr []); ("runtime", JInt 0)])
          (_search_tmdb (env := catalog_env detail_crew None)
             "The Matrix" (Some 1999) movie one_movie).2).2)
    /\ is_Some (assoc "The.Matrix.1999.1080p.mkv" kv').
Proof.
  destruct (process_file_resolves (env := catalog_env detail_crew None)
              ["The.Matrix.1999.1080p.mkv"] [] one_movie
              (JObj [("id", JInt 603); ("title", JStr "The Matrix");
                     ("original_title", JStr EmptyString);
                     ("year", JStr "1999");
                     ("overview", JStr EmptyString); ("poster_path", JNull);
                     ("genres", JArr []); ("rating", JInt 0);
                     ("type", JStr "movie");
                     ("directors",
                      JArr [JStr "Lilly Wachowski"; JStr "Lana Wachowski"]);
                     ("cast", JArr []); ("runtime", JInt 0)])
              (_search_tmdb (env := catalog_env detail_crew None)
                 "The Matrix" (Some 1999) movie one_movie).2)
    as (kv' & Hrun & Hget & _).
  - reflexivity.
  - vm_compute. reflexivity.
  - exists kv'. split; [exact Hrun|].
    cbn [py_get] in Hget.
    change (path_str ["The.Matrix.1999.1080p.mkv"])
      with "The.Matrix.1999.1080p.mkv" in Hget.
    destruct (assoc "The.Matrix.1999.1080p.mkv" kv'); [eauto|].
    discriminate Hget.
Defined.

End MoreRuns.
